(* ===================================================================== *)
(* spreadFut: the Binance USDT-M perpetual pair fetchers.                 *)
(*                                                                       *)
(*   Binance/fetch_pairs.py                  (the file variant)          *)
(*   Binance/fetch_usdt_perpetual_pairs.py   (the console variant)       *)
(*                                                                       *)
(* Python values are embedded as a small object type, exceptions as an   *)
(* error result, the network as an explicit input of each main, and a    *)
(* process run as the record of what it printed, what it wrote and its   *)
(* exit status.                                                          *)
(* ===================================================================== *)

Set Warnings "-notation-overridden,-notation-incompatible-prefix".
Set Warnings "-rewrite-rw,-register-all,-abstract-large-number".
From Stdlib Require Import ZArith String Ascii.
From mathcomp Require Import ssreflect ssrfun ssrbool eqtype ssrnat seq path.

Set Implicit Arguments.
Unset Strict Implicit.
Unset Printing Implicit Defensive.

(* --------------------------------------------------------------------- *)
(* Python strings                                                        *)
(* --------------------------------------------------------------------- *)

(* A str is a sequence of Unicode code points. *)
Definition pystr := seq nat.

(* A literal of the source, given by its ASCII text. *)
Definition str (s : string) : pystr :=
  [seq nat_of_ascii a | a <- list_ascii_of_string s].

(* s < t on str: lexicographic on code points, a proper prefix first. *)
Fixpoint str_lt (s t : pystr) : bool :=
  match s, t with
  | _, [::] => false
  | [::], _ :: _ => true
  | c :: s', d :: t' => (c < d) || ((c == d) && str_lt s' t')
  end.

(* s <= t on str. *)
Definition str_le (s t : pystr) : bool := ~~ str_lt t s.

(* --------------------------------------------------------------------- *)
(* Exceptions                                                            *)
(* --------------------------------------------------------------------- *)

Inductive exn :=
  | OSError | URLError | HTTPError | TimeoutError
  | RuntimeError
  | ValueError | JSONDecodeError | UnicodeDecodeError | UnicodeEncodeError
  | LookupError | KeyError | IndexError
  | TypeError | AttributeError.

Definition exn_tag (e : exn) : nat :=
  match e with
  | OSError => 0 | URLError => 1 | HTTPError => 2 | TimeoutError => 3
  | RuntimeError => 4
  | ValueError => 5 | JSONDecodeError => 6 | UnicodeDecodeError => 7
  | LookupError => 8 | KeyError => 9 | IndexError => 10
  | TypeError => 11 | AttributeError => 12
  | UnicodeEncodeError => 13
  end.

Definition exn_eqb (e1 e2 : exn) : bool := exn_tag e1 == exn_tag e2.

(* The classes an exception is an instance of, most specific first:
   urllib.error.HTTPError derives from URLError, URLError from OSError,
   json.JSONDecodeError, UnicodeDecodeError and UnicodeEncodeError from
   ValueError. *)
Definition mro (e : exn) : seq exn :=
  match e with
  | URLError => [:: URLError; OSError]
  | HTTPError => [:: HTTPError; URLError; OSError]
  | TimeoutError => [:: TimeoutError; OSError]
  | JSONDecodeError => [:: JSONDecodeError; ValueError]
  | UnicodeDecodeError => [:: UnicodeDecodeError; ValueError]
  | UnicodeEncodeError => [:: UnicodeEncodeError; ValueError]
  | KeyError => [:: KeyError; LookupError]
  | IndexError => [:: IndexError; LookupError]
  | e => [:: e]
  end.

Definition isinstance (e cls : exn) : bool := has (exn_eqb cls) (mro e).

(* except (c1, c2, ...): *)
Definition caught_by (classes : seq exn) (e : exn) : bool :=
  has (isinstance e) classes.

(* The outcome of evaluating Python code: a value or a raised exception. *)
Inductive result (A : Type) :=
  | Ok (a : A)
  | Raise (e : exn).

Arguments Ok {A} a.
Arguments Raise {A} e.

Definition bind {A B} (r : result A) (k : A -> result B) : result B :=
  match r with
  | Ok a => k a
  | Raise e => Raise e
  end.

Notation "x <- r ;; k" := (bind r (fun x => k))
  (at level 100, r at next level, right associativity).

Definition is_ok {A} (r : result A) : bool :=
  if r is Ok _ then true else false.

Definition raises {A} (r : result A) (e : exn) : bool :=
  if r is Raise e' then exn_eqb e' e else false.

(* --------------------------------------------------------------------- *)
(* Python objects, as json.load builds them                              *)
(* --------------------------------------------------------------------- *)

(* A float: only whether it is zero is ever inspected here. *)
Inductive pyfloat :=
  | FNaN
  | FInf (negative : bool)
  | FFinite (negative : bool) (mantissa : nat) (exponent : Z).

Inductive pyobj :=
  | PyNone
  | PyBool (b : bool)
  | PyInt (z : Z)
  | PyFloat (f : pyfloat)
  | PyStr (s : pystr)
  | PyList (items : seq pyobj)
  | PyDict (entries : seq (pystr * pyobj)).

(* bool(x) *)
Definition truthy (x : pyobj) : bool :=
  match x with
  | PyNone => false
  | PyBool b => b
  | PyInt z => ~~ Z.eqb z 0
  | PyFloat (FFinite _ m _) => m != 0
  | PyFloat _ => true
  | PyStr s => s != [::]
  | PyList items => ~~ nilp items
  | PyDict entries => ~~ nilp entries
  end.

(* x == "literal": only a str with the same code points is equal to a str. *)
Definition eq_str (x : pyobj) (lit : pystr) : bool :=
  if x is PyStr s then s == lit else false.

(* The value a dict holds under a key: an association list, the first
   binding of a key being the one in force. *)
Fixpoint lookup (entries : seq (pystr * pyobj)) (key : pystr) : option pyobj :=
  match entries with
  | [::] => None
  | (k, v) :: rest => if k == key then Some v else lookup rest key
  end.

(* x.get(key, default): only a dict has the method. *)
Definition get_default (x : pyobj) (key : pystr) (default : pyobj)
  : result pyobj :=
  match x with
  | PyDict entries => Ok (odflt default (lookup entries key))
  | _ => Raise AttributeError
  end.

(* x.get(key) *)
Definition get (x : pyobj) (key : pystr) : result pyobj :=
  get_default x key PyNone.

(* x[key] with a str key. *)
Definition getitem (x : pyobj) (key : pystr) : result pyobj :=
  match x with
  | PyDict entries =>
      if lookup entries key is Some v then Ok v else Raise KeyError
  | _ => Raise TypeError
  end.

(* x[0] *)
Definition getitem0 (x : pyobj) : result pyobj :=
  match x with
  | PyStr [::] => Raise IndexError
  | PyStr (c :: _) => Ok (PyStr [:: c])
  | PyList [::] => Raise IndexError
  | PyList (y :: _) => Ok y
  | PyDict _ => Raise KeyError
  | _ => Raise TypeError
  end.

(* for y in x: the items a loop over x visits. *)
Definition iter (x : pyobj) : result (seq pyobj) :=
  match x with
  | PyList items => Ok items
  | PyStr s => Ok [seq PyStr [:: c] | c <- s]
  | PyDict entries => Ok [seq PyStr kv.1 | kv <- entries]
  | _ => Raise TypeError
  end.

(* The strings of a list that holds nothing but str objects. *)
Fixpoint as_strs (xs : seq pyobj) : option (seq pystr) :=
  match xs with
  | [::] => Some [::]
  | PyStr s :: rest => omap (cons s) (as_strs rest)
  | _ :: _ => None
  end.

(* --------------------------------------------------------------------- *)
(* What the interpreter supplies                                         *)
(* --------------------------------------------------------------------- *)

(* Four parts of the interpreter and its surroundings are left open
   rather than transcribed: the Unicode table behind str.isdigit beyond
   ASCII; the outcome of sorting objects that are not all str, where the
   order of the comparisons (and so whether one of them raises TypeError)
   is a matter of the list.sort implementation, None meaning TypeError;
   and whether sys.stdout, with the encoding and the error handler it was
   opened with, takes the text of an object that is not an ASCII str. *)
Record runtime := Runtime {
  unicode_isdigit : nat -> bool;
  sorted_keys_mixed : seq (bool * pyobj) -> option (seq (bool * pyobj));
  sorted_set_mixed : seq pyobj -> option (seq pyobj);
  stdout_accepts : pyobj -> bool
}.

(* sorted(xs) under a total <: the sort is stable and calls < alone, an
   item y moves in front of x only when y < x. *)
Definition sorted_with (T : Type) (lt : rel T) (xs : seq T) : seq T :=
  sort (fun x y => ~~ lt y x) xs.

(* mapM in the error monad: the first exception ends the traversal. *)
Fixpoint map_result (A B : Type) (f : A -> result B) (xs : seq A)
  : result (seq B) :=
  match xs with
  | [::] => Ok [::]
  | x :: rest => y <- f x;; ys <- map_result f rest;; Ok (y :: ys)
  end.

(* --------------------------------------------------------------------- *)
(* The key both sorters use                                              *)
(* --------------------------------------------------------------------- *)

(* c.isdigit() for one code point. *)
Definition char_isdigit (rt : runtime) (c : nat) : bool :=
  if c < 128 then (48 <= c) && (c <= 57) else unicode_isdigit rt c.

(* s.isdigit(): at least one character and all of them digits. *)
Definition str_isdigit (rt : runtime) (s : pystr) : bool :=
  (s != [::]) && all (char_isdigit rt) s.

(* x.isdigit(): a method of str only. *)
Definition isdigit (rt : runtime) (x : pyobj) : result bool :=
  if x is PyStr s then Ok (str_isdigit rt s) else Raise AttributeError.

(* lambda item: (item[0].isdigit(), item) *)
Definition sort_key (rt : runtime) (item : pyobj) : result (bool * pyobj) :=
  first <- getitem0 item;;
  flag <- isdigit rt first;;
  Ok (flag, item).

(* (b1, s1) < (b2, s2) on tuples: the first components that differ
   decide, False < True. *)
Definition key_lt (k1 k2 : bool * pystr) : bool :=
  if k1.1 != k2.1 then ~~ k1.1 && k2.1
  else if k1.2 != k2.2 then str_lt k1.2 k2.2
  else false.

Definition key_le (k1 k2 : bool * pystr) : bool := ~~ key_lt k2 k1.

Fixpoint as_str_keys (ks : seq (bool * pyobj)) : option (seq (bool * pystr)) :=
  match ks with
  | [::] => Some [::]
  | (b, PyStr s) :: rest => omap (cons (b, s)) (as_str_keys rest)
  | _ :: _ => None
  end.

(* The comparison phase of sorted(values, key=...). *)
Definition sorted_keys (rt : runtime) (ks : seq (bool * pyobj))
  : result (seq (bool * pyobj)) :=
  match as_str_keys ks with
  | Some sks => Ok [seq (k.1, PyStr k.2) | k <- sorted_with key_lt sks]
  | None =>
      if sorted_keys_mixed rt ks is Some r then Ok r else Raise TypeError
  end.

(* sorted(set(symbols)): on str objects the set keeps one of each and the
   sort puts them in code point order, whatever order the set iterates in. *)
Definition sorted_set (rt : runtime) (symbols : seq pyobj)
  : result (seq pyobj) :=
  match as_strs symbols with
  | Some ss => Ok [seq PyStr s | s <- sorted_with str_lt (undup ss)]
  | None =>
      if sorted_set_mixed rt symbols is Some r then Ok r else Raise TypeError
  end.

(* --------------------------------------------------------------------- *)
(* The network                                                           *)
(* --------------------------------------------------------------------- *)

(* How the one HTTP exchange ends: the transport raises, or a reply
   arrives (the last one, redirects followed) with a status and a body.
   The body is given by what json.load makes of it. *)
Inductive transport :=
  | TransportError (e : exn)
  | Replied (status : nat) (body : result pyobj).

Record response := Response {
  status : nat;
  json_load : result pyobj
}.

(* urllib.request.urlopen: a reply outside 2xx is turned into HTTPError. *)
Definition urlopen (t : transport) : result response :=
  match t with
  | TransportError e => Raise e
  | Replied st body =>
      if (200 <= st) && (st < 300) then Ok (Response st body)
      else Raise HTTPError
  end.

Definition PERPETUAL : pystr := str "PERPETUAL".
Definition USDT : pystr := str "USDT".

(* --------------------------------------------------------------------- *)
(* A process run                                                         *)
(* --------------------------------------------------------------------- *)

(* What a run prints, by the statement that printed it. *)
Inductive line :=
  | Warning (exc : exn)        (* Warning: could not reach Binance API ... *)
  | Saved (count : nat)        (* Saved {len(symbols)} symbols to ...      *)
  | Symbol (symbol : pyobj)    (* print(symbol)                            *)
  | Failed (exc : exn)         (* Failed to retrieve symbols: ...          *)
  | Traceback (exc : exn).     (* the interpreter, on an uncaught exception *)

Record outcome := Outcome {
  stdout : seq line;
  stderr : seq line;
  written : option (seq pyobj);   (* the list dumped into pairs.json *)
  exit_status : nat
}.

(* An exception no handler takes: the interpreter prints the traceback on
   the error stream and the process ends with status 1. *)
Definition uncaught (out : seq line) (e : exn) : outcome :=
  Outcome out [:: Traceback e] None 1.

(* A str made of ASCII characters: every encoding of sys.stdout has them. *)
Definition ascii_str (x : pyobj) : bool :=
  if x is PyStr s then all (fun c => c < 128) s else false.

(* Whether print(x) gets the text of x through sys.stdout; when it does
   not, print raises UnicodeEncodeError. *)
Definition prints (rt : runtime) (x : pyobj) : bool :=
  ascii_str x || stdout_accepts rt x.

(* --------------------------------------------------------------------- *)
(* fetch_pairs.py, the file variant                                      *)
(* --------------------------------------------------------------------- *)

Module fetch_pairs.

(* Cached copy of USDT-margined perpetual contracts from fapi.binance.com. *)
Definition CACHED_SYMBOLS : seq pyobj := [seq PyStr (str s) | s <- [::
    "ACE"; "ACM"; "AAVE"; "ACH"; "ADA"; "ADX"; "AEVO"; "AERGO"; "AGIX"; "AGLD";
    "AIOZ"; "AKRO"; "ALGO"; "ALICE"; "ALPACA"; "ALPHA"; "ALPINE"; "ALT"; "AMB";
    "ANKR"; "ANT"; "APE"; "API3"; "APT"; "AR"; "ARB"; "ARK"; "ARKM"; "ARPA";
    "ASR"; "ASTR"; "ATA"; "ATM"; "ATOM"; "AUCTION"; "AUDIO"; "AVA"; "AVAX";
    "AXS"; "BADGER"; "BAKE"; "BAL"; "BAND"; "BAR"; "BCH"; "BEAMX"; "BEL";
    "BETA"; "BICO"; "BIGTIME"; "BLUR"; "BLZ"; "BNB"; "BNX"; "BOME"; "BOND";
    "BSV"; "BTC"; "BTCDOM"; "BTTC"; "C98"; "CAKE"; "CELO"; "CELR"; "CFX";
    "CHR"; "CHZ"; "CHESS"; "CITY"; "CKB"; "COCOS"; "COMBO"; "COMP"; "COTI";
    "CRV"; "CSPR"; "CTK"; "CTSI"; "CVC"; "CVX"; "CYBER"; "DAR"; "DASH";
    "DEFI"; "DEXE"; "DENT"; "DGB"; "DODO"; "DOGE"; "DOT"; "DUSK"; "DYDX";
    "DYM"; "EDU"; "EGLD"; "ENA"; "ENJ"; "ENS"; "EOS"; "ETC"; "ETH";
    "ETHFI"; "FET"; "FIDA"; "FIL"; "FLM"; "FLOW"; "FLR"; "FOOTBALL";
    "FRONT"; "FTM"; "FXS"; "GALA"; "GAL"; "GAS"; "GF"; "GFT"; "GLMR"; "GMT";
    "GMX"; "GRT"; "GTC"; "HBAR"; "HFT"; "HIFI"; "HIGH"; "HNT"; "HOOK"; "HOT";
    "ICP"; "ICX"; "ID"; "ILV"; "IMX"; "INJ"; "IOST"; "IOTA"; "IOTX";
    "JASMY"; "JOE"; "JTO"; "JUP"; "JUV"; "KAS"; "KAVA"; "KEY"; "KLAY";
    "KNC"; "KSM"; "LAZIO"; "LDO"; "LEVER"; "LINA"; "LINK"; "LISTA"; "LIT";
    "LOOKS"; "LOKA"; "LOOM"; "LPT"; "LQTY"; "LRC"; "LTC"; "LTO"; "LUNA2";
    "LUNC"; "MAGIC"; "MANTA"; "MANA"; "MASK"; "MATIC"; "MAV"; "MAVIA"; "MBOX";
    "MDT"; "MEME"; "MINA"; "MKR"; "MTL"; "NEAR"; "NEO"; "NFP"; "NKN"; "NMR";
    "NOT"; "NTRN"; "OCEAN"; "OG"; "OMG"; "OM"; "OMNI"; "ONDO"; "ONT"; "OP";
    "ORDI"; "PAXG"; "PEOPLE"; "PEPE"; "PENDLE"; "PERP"; "PHA"; "PHB"; "PIXEL";
    "PLA"; "POL"; "POLYX"; "POLS"; "POND"; "PORTAL"; "PORTO"; "POWR"; "PROM";
    "PSG"; "PYTH"; "QI"; "QNT"; "QTUM"; "RAD"; "RAY"; "RDNT"; "REI"; "REEF";
    "REN"; "RLC"; "RNDR"; "ROSE"; "RPL"; "RBN"; "RSR"; "RUNE"; "RVN"; "SAGA";
    "SAND"; "SANTOS"; "SC"; "SEI"; "SFP"; "SHIB"; "SKL"; "SLP"; "SNX"; "SOL";
    "SPELL"; "SSV"; "STG"; "STMX"; "STORJ"; "STPT"; "STRAX"; "STRK"; "STX";
    "SUI"; "SUN"; "SUPER"; "SUSHI"; "SXP"; "SYN"; "TAO"; "T"; "THETA"; "TIA";
    "TLM"; "TNSR"; "TOMO"; "TON"; "TRB"; "TRU"; "TRX"; "TURBO"; "TWT"; "UMA";
    "UNFI"; "UNI"; "USDC"; "UTK"; "VANRY"; "VET"; "VOXEL"; "WAVES"; "WIF";
    "WLD"; "WOO"; "XAI"; "XEC"; "XEM"; "XLM"; "XRP"; "XTZ"; "XVG"; "XVS";
    "YFI"; "YGG"; "ZEC"; "ZEN"; "ZETA"; "ZIL"; "ZK"; "ZRO"; "ZRX";
    "1000BONK"; "1000FLOKI"; "1000LUNC"; "1000PEPE"; "1000SATS"; "1000SHIB";
    "1INCH"
  ]%string].

(* [symbol_info["symbol"] for symbol_info in ...
      if symbol_info.get("contractType") == "PERPETUAL"
      and symbol_info.get("quoteAsset") == "USDT"]
   with the list built so far as the loop state. *)
Fixpoint comprehension (infos : seq pyobj) (symbols : seq pyobj)
  : result (seq pyobj) :=
  match infos with
  | [::] => Ok symbols
  | symbol_info :: rest =>
      contract_type <- get symbol_info (str "contractType");;
      if eq_str contract_type PERPETUAL then
        quote_asset <- get symbol_info (str "quoteAsset");;
        if eq_str quote_asset USDT then
          symbol <- getitem symbol_info (str "symbol");;
          comprehension rest (rcons symbols symbol)
        else comprehension rest symbols
      else comprehension rest symbols
  end.

(* The part of fetch_symbols after json.load. *)
Definition symbols_of_payload (rt : runtime) (payload : pyobj)
  : result (seq pyobj) :=
  records <- getitem payload (str "symbols");;
  infos <- iter records;;
  symbols <- comprehension infos [::];;
  sorted_set rt symbols.

Definition fetch_symbols (rt : runtime) (t : transport)
  : result (seq pyobj) :=
  resp <- urlopen t;;
  payload <- json_load resp;;
  symbols_of_payload rt payload.

(* return sorted(values, key=lambda item: (item[0].isdigit(), item))
   Every key is computed before the first comparison. *)
Definition custom_sort (rt : runtime) (values : seq pyobj)
  : result (seq pyobj) :=
  keys <- map_result (sort_key rt) values;;
  ordered <- sorted_keys rt keys;;
  Ok [seq k.2 | k <- ordered].

(* The last three statements of main: sort once more, write the file,
   report. write_text and print are taken to succeed. *)
Definition save (rt : runtime) (out : seq line) (symbols : seq pyobj)
  : outcome :=
  match custom_sort rt symbols with
  | Raise e => uncaught out e
  | Ok symbols' =>
      Outcome (rcons out (Saved (size symbols'))) [::] (Some symbols') 0
  end.

Definition main (rt : runtime) (t : transport) : outcome :=
  match fetch_symbols rt t with
  | Raise exc =>
      if caught_by [:: URLError; HTTPError] exc then
        save rt [:: Warning exc] CACHED_SYMBOLS
      else uncaught [::] exc
  | Ok symbols =>
      match custom_sort rt symbols with
      | Raise e => uncaught [::] e
      | Ok symbols' => save rt [::] symbols'
      end
  end.

End fetch_pairs.

(* --------------------------------------------------------------------- *)
(* fetch_usdt_perpetual_pairs.py, the console variant                    *)
(* --------------------------------------------------------------------- *)

Module fetch_usdt_perpetual_pairs.

Definition fetch_exchange_info (t : transport) : result pyobj :=
  resp <- urlopen t;;
  if status resp != 200 then Raise RuntimeError else json_load resp.

(* The for loop of extract_usdt_perpetual_symbols, the list symbols being
   the loop state. *)
Fixpoint extract_loop (infos : seq pyobj) (symbols : seq pyobj)
  : result (seq pyobj) :=
  match infos with
  | [::] => Ok symbols
  | symbol_info :: rest =>
      contract_type <- get symbol_info (str "contractType");;
      if ~~ eq_str contract_type PERPETUAL then extract_loop rest symbols
      else
        quote_asset <- get symbol_info (str "quoteAsset");;
        if ~~ eq_str quote_asset USDT then extract_loop rest symbols
        else
          symbol <- get symbol_info (str "symbol");;
          if truthy symbol then extract_loop rest (rcons symbols symbol)
          else extract_loop rest symbols
  end.

Definition extract_usdt_perpetual_symbols (payload : pyobj)
  : result (seq pyobj) :=
  records <- get_default payload (str "symbols") (PyList [::]);;
  infos <- iter records;;
  extract_loop infos [::].

(* return sorted(symbols, key=lambda s: (s[0].isdigit(), s)) *)
Definition sort_symbols (rt : runtime) (symbols : seq pyobj)
  : result (seq pyobj) :=
  keys <- map_result (sort_key rt) symbols;;
  ordered <- sorted_keys rt keys;;
  Ok [seq k.2 | k <- ordered].

(* for symbol in ...: print(symbol), the lines printed so far being the
   loop state. A symbol sys.stdout cannot encode ends the loop on
   UnicodeEncodeError, after the lines before it. *)
Fixpoint print_loop (rt : runtime) (symbols : seq pyobj) (out : seq line)
  : outcome :=
  match symbols with
  | [::] => Outcome out [::] None 0
  | symbol :: rest =>
      if prints rt symbol then print_loop rt rest (rcons out (Symbol symbol))
      else uncaught out UnicodeEncodeError
  end.

Definition main (rt : runtime) (t : transport) : outcome :=
  match (payload <- fetch_exchange_info t;;
         extract_usdt_perpetual_symbols payload) with
  | Raise exc =>
      if caught_by [:: URLError; RuntimeError; JSONDecodeError] exc then
        Outcome [::] [:: Failed exc] None 1
      else uncaught [::] exc
  | Ok symbols =>
      match sort_symbols rt symbols with
      | Raise e => uncaught [::] e
      | Ok ordered => print_loop rt ordered [::]
      end
  end.

End fetch_usdt_perpetual_pairs.

Import fetch_pairs fetch_usdt_perpetual_pairs.

(* --------------------------------------------------------------------- *)
(* The vocabulary of the properties                                      *)
(* --------------------------------------------------------------------- *)

(* The precondition of the sorter: a str with a first character. *)
Definition nonempty_str (x : pyobj) : bool :=
  if x is PyStr s then s != [::] else false.

(* The first character of s is a digit. *)
Definition starts_with_digit (rt : runtime) (s : pystr) : bool :=
  if s is c :: _ then char_isdigit rt c else false.

(* The key of a non-empty str. *)
Definition str_key (rt : runtime) (s : pystr) : bool * pystr :=
  (starts_with_digit rt s, s).

(* s goes no later than t: the order of their keys. *)
Definition symbol_le (rt : runtime) : rel pystr := relpre (str_key rt) key_le.

(* The sorter on strings that are known to be non-empty. *)
Definition sort_strs (rt : runtime) (ss : seq pystr) : seq pystr :=
  sort (symbol_le rt) ss.

(* --------------------------------------------------------------------- *)
(* Records, as the payload holds them                                    *)
(* --------------------------------------------------------------------- *)

(* The entries of one symbol_info dict. *)
Definition record := seq (pystr * pyobj).

(* r.get(key) on a dict. *)
Definition field (r : record) (key : pystr) : pyobj :=
  odflt PyNone (lookup r key).

(* The filter both variants apply. *)
Definition qualifies (r : record) : bool :=
  eq_str (field r (str "contractType")) PERPETUAL
  && eq_str (field r (str "quoteAsset")) USDT.

Definition has_symbol (r : record) : bool :=
  isSome (lookup r (str "symbol")).

(* The symbol fields of the qualifying records, in payload order. *)
Definition wanted (records : seq record) : seq pyobj :=
  [seq field r (str "symbol") | r <- records & qualifies r].

(* A runtime to evaluate with: digits are the ASCII ones, a sort of
   objects that are not all str raises TypeError and sys.stdout is opened
   with the ascii encoding. *)
Definition ascii_runtime : runtime :=
  Runtime (fun _ => false) (fun _ => None) (fun _ => None) (fun _ => false).

(* json.load of the reply
   {"symbols": [{"symbol": s, "contractType": c, "quoteAsset": q}, ...]} *)
Definition record_of (r : pystr * pystr * pystr) : pyobj :=
  PyDict [:: (str "symbol", PyStr r.1.1);
             (str "contractType", PyStr r.1.2);
             (str "quoteAsset", PyStr r.2)].

Definition payload_of_symbols (x : pyobj) : pyobj :=
  PyDict [:: (str "symbols", x)].

Definition payload_of (records : seq pyobj) : pyobj :=
  payload_of_symbols (PyList records).

(* A qualifying record that has no symbol field, alone in a payload. *)
Definition nameless_payload : pyobj :=
  payload_of [:: PyDict [:: (str "contractType", PyStr PERPETUAL);
                            (str "quoteAsset", PyStr USDT)]].

(* Records of every kind: one listed twice, one with an empty symbol, one
   with no contractType, a quarterly contract with no symbol, one quoted
   in another asset. *)
Definition ragged_records : seq record := [::
  [:: (str "symbol", PyStr (str "ETHUSDT"));
      (str "contractType", PyStr PERPETUAL); (str "quoteAsset", PyStr USDT)];
  [:: (str "symbol", PyStr (str "1INCHUSDT"));
      (str "contractType", PyStr PERPETUAL); (str "quoteAsset", PyStr USDT)];
  [:: (str "symbol", PyStr [::]);
      (str "contractType", PyStr PERPETUAL); (str "quoteAsset", PyStr USDT)];
  [:: (str "symbol", PyStr (str "ETHUSDT"));
      (str "contractType", PyStr PERPETUAL); (str "quoteAsset", PyStr USDT)];
  [:: (str "symbol", PyStr (str "BTCUSDT")); (str "quoteAsset", PyStr USDT)];
  [:: (str "contractType", PyStr (str "CURRENT_QUARTER"));
      (str "quoteAsset", PyStr USDT)];
  [:: (str "symbol", PyStr (str "BTCUSD"));
      (str "contractType", PyStr PERPETUAL);
      (str "quoteAsset", PyStr (str "USD"))]].

(* The reply that holds them, next to the other entries of exchangeInfo. *)
Definition ragged_top : record := [::
  (str "timezone", PyStr (str "UTC"));
  (str "serverTime", PyInt 1717000000000);
  (str "symbols", PyList [seq PyDict r | r <- ragged_records])].

Definition ragged_payload : pyobj := PyDict ragged_top.

Definition example_payload : pyobj :=
  payload_of [seq record_of r | r <- [::
    (str "BTCUSDT", str "PERPETUAL", str "USDT");
    (str "1000PEPEUSDT", str "PERPETUAL", str "USDT");
    (str "BTCUSD", str "PERPETUAL", str "USD")]].

(* The qualifying str symbols of ragged_records, in payload order. *)
Definition ragged_symbols : seq pystr :=
  [:: str "ETHUSDT"; str "1INCHUSDT"; [::]; str "ETHUSDT"].

(* An unsorted list of symbols with both kinds of first character. *)
Definition sample_symbols : seq pyobj :=
  [seq PyStr (str s) | s <- [:: "ETHUSDT"; "1INCHUSDT"; "BTCUSDT";
                               "1000PEPEUSDT"; "ETHUSDT"; "AAVEUSDT"]%string].

(* Ways the exchange can end badly: no route to the host, a 503 reply, a
   204 reply, a 200 reply whose body is not JSON. *)
Definition unreachable : transport := TransportError URLError.
Definition unavailable : transport := Replied 503 (Raise JSONDecodeError).
Definition no_content : transport := Replied 204 (Raise JSONDecodeError).
Definition garbled : transport := Replied 200 (Raise JSONDecodeError).

(* A server that accepts the connection and then stays silent past the
   timeout, before the status line or in the middle of the body. *)
Definition stalled : transport := TransportError TimeoutError.
Definition stalled_body : transport := Replied 200 (Raise TimeoutError).

(* --------------------------------------------------------------------- *)
(* Shapes of items, payloads and replies                                 *)
(* --------------------------------------------------------------------- *)

Definition is_dict (x : pyobj) : bool :=
  if x is PyDict _ then true else false.

(* An item the sort key is defined on: a str with a first character, or a
   list whose first item is a str. *)
Definition sortable (x : pyobj) : bool :=
  match x with
  | PyStr (_ :: _) => true
  | PyList (PyStr _ :: _) => true
  | _ => false
  end.

(* The dict top lists the dict records under symbols, and the qualifying
   ones carry, in payload order, the str symbols ss. *)
Definition carries (top : record) (records : seq record) (ss : seq pystr)
  : Prop :=
  lookup top (str "symbols") = Some (PyList [seq PyDict r | r <- records])
  /\ [seq lookup r (str "symbol") | r <- records & qualifies r]
     = [seq Some (PyStr s) | s <- ss].

(* A line printed by print(symbol). *)
Definition is_symbol (l : line) : bool :=
  if l is Symbol _ then true else false.

(* A printed line other than the Saved report. *)
Definition not_saved (l : line) : bool :=
  if l is Saved _ then false else true.

(* A 2xx status. *)
Definition success (st : nat) : bool := (200 <= st) && (st < 300).

(* The entries of a record with its three fields. *)
Definition listing (symbol contract_type quote_asset : string) : record :=
  [:: (str "symbol", PyStr (str symbol));
      (str "contractType", PyStr (str contract_type));
      (str "quoteAsset", PyStr (str quote_asset))].

(* A reply with a repeated symbol and records that do not qualify. *)
Definition listed_records : seq record := [::
  listing "ETHUSDT" "PERPETUAL" "USDT";
  listing "1INCHUSDT" "PERPETUAL" "USDT";
  listing "BTCUSDT" "CURRENT_QUARTER" "USDT";
  listing "ETHUSDT" "PERPETUAL" "USDT";
  listing "BTCUSD" "PERPETUAL" "USD";
  [:: (str "symbol", PyStr (str "XRPUSDT")); (str "quoteAsset", PyStr USDT)];
  listing "AAVEUSDT" "PERPETUAL" "USDT"].

Definition listed_top : record := [::
  (str "timezone", PyStr (str "UTC"));
  (str "symbols", PyList [seq PyDict r | r <- listed_records])].

Definition listed_symbols : seq pystr :=
  [:: str "ETHUSDT"; str "1INCHUSDT"; str "ETHUSDT"; str "AAVEUSDT"].

(* A reply in which no qualifying symbol is repeated. *)
Definition distinct_records : seq record := [::
  listing "ETHUSDT" "PERPETUAL" "USDT";
  listing "1INCHUSDT" "PERPETUAL" "USDT";
  listing "BTCUSD" "PERPETUAL" "USD";
  listing "AAVEUSDT" "PERPETUAL" "USDT"].

Definition distinct_top : record := [::
  (str "symbols", PyList [seq PyDict r | r <- distinct_records])].

Definition distinct_symbols : seq pystr :=
  [:: str "ETHUSDT"; str "1INCHUSDT"; str "AAVEUSDT"].

(* The same symbols as in listed_records, in another order and with
   other repetitions. *)
Definition shuffled_records : seq record := [::
  listing "AAVEUSDT" "PERPETUAL" "USDT";
  listing "AAVEUSDT" "PERPETUAL" "USDT";
  listing "ETHUSDT" "PERPETUAL" "USDT";
  listing "1INCHUSDT" "PERPETUAL" "USDT"].

Definition shuffled_top : record := [::
  (str "symbols", PyList [seq PyDict r | r <- shuffled_records]);
  (str "serverTime", PyInt 1717000000000)].

Definition shuffled_symbols : seq pystr :=
  [:: str "AAVEUSDT"; str "AAVEUSDT"; str "ETHUSDT"; str "1INCHUSDT"].

(* A runtime whose sys.stdout is opened with utf-8 and the strict error
   handler: it takes every str but those with a surrogate code point, and
   the text of every other object (repr escapes the surrogates). *)
Definition is_surrogate (c : nat) : bool := (55296 <= c) && (c <= 57343).

Definition utf8_runtime : runtime :=
  Runtime (fun _ => false) (fun _ => None) (fun _ => None)
    (fun x => if x is PyStr s then ~~ has is_surrogate s else true).

(* A reply with two symbols that hold a lone surrogate, as json.load
   builds them from the escapes \ud800 and \ude00. *)
Definition surrogate_records : seq record := [::
  [:: (str "symbol", PyStr (56832 :: str "X"));
      (str "contractType", PyStr PERPETUAL); (str "quoteAsset", PyStr USDT)];
  [:: (str "symbol", PyStr (55296 :: str "USDT"));
      (str "contractType", PyStr PERPETUAL); (str "quoteAsset", PyStr USDT)];
  listing "AUSDT" "PERPETUAL" "USDT"].

Definition surrogate_top : record := [::
  (str "symbols", PyList [seq PyDict r | r <- surrogate_records])].

Definition surrogate_symbols : seq pystr :=
  [:: 56832 :: str "X"; 55296 :: str "USDT"; str "AUSDT"].

(* A reply with no symbols entry. *)
Definition bare_top : record := [:: (str "timezone", PyStr (str "UTC"))].

(* A reply whose symbols list holds a str after a qualifying record. *)
Definition broken_items : seq pyobj := [::
  PyDict (listing "ETHUSDT" "PERPETUAL" "USDT"); PyStr (str "BTCUSDT")].

Definition broken_top : record := [:: (str "symbols", PyList broken_items)].

(* ===================================================================== *)
(* Properties                                                            *)
(* ===================================================================== *)

(* --------------------------------------------------------------------- *)
(* The model on small inputs                                             *)
(* --------------------------------------------------------------------- *)

Example str_lt_examples :
  [&& str_lt (str "a") (str "ab"), str_lt (str "ab") (str "b"),
      str_lt (str "Z") (str "a"), str_lt (str "1") (str "B")
    & ~~ str_lt (str "B") (str "B")].
Proof. by []. Qed.

Example sort_key_examples (rt : runtime) :
  [/\ sort_key rt (PyStr [::]) = Raise IndexError,
      sort_key rt (PyList [::]) = Raise IndexError,
      sort_key rt (PyDict [:: (str "a", PyInt 1)]) = Raise KeyError,
      sort_key rt (PyInt 5) = Raise TypeError
    & sort_key rt (PyList [:: PyList [:: PyInt 1]]) = Raise AttributeError]
  /\ [/\ sort_key rt (PyList [:: PyStr [::]])
          = Ok (false, PyList [:: PyStr [::]]),
        sort_key rt (PyList [:: PyStr (str "1")])
          = Ok (true, PyList [:: PyStr (str "1")]),
        sort_key rt (PyStr (str "1INCHUSDT")) = Ok (true, PyStr (str "1INCHUSDT"))
      & sort_key rt (PyStr (str "BTCUSDT")) = Ok (false, PyStr (str "BTCUSDT"))].
Proof. by []. Qed.

Example custom_sort_sample (rt : runtime) :
  custom_sort rt sample_symbols
  = Ok [seq PyStr (str s) | s <- [:: "AAVEUSDT"; "BTCUSDT"; "ETHUSDT"; "ETHUSDT";
                                     "1000PEPEUSDT"; "1INCHUSDT"]%string].
Proof. by vm_compute. Qed.

(* Payloads of the wrong shape: a list, a dict without symbols, a dict
   whose symbols entry is a number or a str. *)
Example misshapen_payloads (rt : runtime) :
  [/\ symbols_of_payload rt (PyList [:: PyInt 1]) = Raise TypeError,
      extract_usdt_perpetual_symbols (PyList [:: PyInt 1]) = Raise AttributeError,
      symbols_of_payload rt (PyDict [::]) = Raise KeyError,
      extract_usdt_perpetual_symbols (PyDict [::]) = Ok [::]
    & extract_usdt_perpetual_symbols (payload_of_symbols (PyInt 5))
        = Raise TypeError]
  /\ extract_usdt_perpetual_symbols (payload_of_symbols (PyStr (str "ab")))
       = Raise AttributeError.
Proof. by []. Qed.

(* --------------------------------------------------------------------- *)
(* The order on str and on sort keys                                     *)
(* --------------------------------------------------------------------- *)

Lemma str_lt_irreflexive : irreflexive str_lt.
Proof. by elim=> [|c s IH] //=; rewrite ltnn eqxx. Qed.

Lemma str_lt_trans : transitive str_lt.
Proof.
move=> t s u; elim: s t u => [|c s IH] [|d t] [|e u] //=.
case/orP=> [cd|/andP[/eqP -> st]]; case/orP=> [de|/andP[/eqP <- tu]].
- by rewrite (ltn_trans cd de).
- by rewrite cd.
- by rewrite de.
- by rewrite eqxx (IH _ _ st tu) orbT.
Qed.

Lemma str_lt_trichotomy s t : [|| str_lt s t, s == t | str_lt t s].
Proof.
elim: s t => [|c s IH] [|d t] //=.
rewrite eqseq_cons [d == c]eq_sym.
by case: ltngtP => //= _; exact: IH.
Qed.

Lemma str_lt_asym s t : str_lt s t -> str_lt t s = false.
Proof.
move=> st; apply/negP=> ts.
by move: (str_lt_trans st ts); rewrite str_lt_irreflexive.
Qed.

Lemma str_leE s t : str_le s t = (s == t) || str_lt s t.
Proof.
rewrite /str_le; case: eqP => [->|/eqP ne] /=.
  by rewrite str_lt_irreflexive.
case st: (str_lt s t); first by rewrite (str_lt_asym st).
by move: (str_lt_trichotomy s t); rewrite st (negPf ne) /= => ->.
Qed.

Lemma str_le_total : total str_le.
Proof.
move=> s t; rewrite /str_le.
by case ts: (str_lt t s) => //=; rewrite (str_lt_asym ts).
Qed.

Lemma str_le_trans : transitive str_le.
Proof.
move=> t s u; rewrite !str_leE.
case/orP=> [/eqP -> //|st]; case/orP=> [/eqP <-|tu]; first by rewrite st orbT.
by rewrite (str_lt_trans st tu) orbT.
Qed.

Lemma str_le_antisym : antisymmetric str_le.
Proof.
move=> s t /andP[]; rewrite !str_leE.
case/orP=> [/eqP //|st]; case/orP=> [/eqP //|ts].
by rewrite (str_lt_asym st) in ts.
Qed.

(* key_le is the lexicographic order of (bool, str) pairs. *)
Lemma key_leE k1 k2 :
  key_le k1 k2 =
  (~~ k1.1 && k2.1) || ((k1.1 == k2.1) && str_le k1.2 k2.2).
Proof.
case: k1 k2 => [b1 s1] [b2 s2]; rewrite /key_le /key_lt /=.
by case: b1; case: b2 => //=; rewrite /str_le;
   case: eqP => [->|] //=; rewrite str_lt_irreflexive.
Qed.

Lemma key_le_total : total key_le.
Proof.
move=> [b1 s1] [b2 s2]; rewrite !key_leE /=.
by case: b1; case: b2 => //=; exact: str_le_total.
Qed.

Lemma key_le_trans : transitive key_le.
Proof.
move=> [b2 s2] [b1 s1] [b3 s3]; rewrite !key_leE /=.
by case: b1; case: b2; case: b3 => //=; exact: str_le_trans.
Qed.

Lemma key_le_antisym : antisymmetric key_le.
Proof.
move=> [b1 s1] [b2 s2]; rewrite !key_leE /=.
by case: b1; case: b2 => //= /str_le_antisym ->.
Qed.

(* sorted_with stands for the list.sort of CPython: on keys and on str the
   order is total, transitive and antisymmetric, so the sorted arrangement
   of a list is unique and every correct sort returns it. *)
Lemma sorted_keys_unique (ks out : seq (bool * pystr)) :
  perm_eq out ks -> sorted key_le out -> out = sorted_with key_lt ks.
Proof.
move=> po so; apply: (sorted_eq key_le_trans key_le_antisym) => //.
  exact/sort_sorted/key_le_total.
by rewrite perm_sym perm_sort perm_sym.
Qed.

Lemma sorted_strs_unique (ss out : seq pystr) :
  perm_eq out ss -> sorted str_le out -> out = sorted_with str_lt ss.
Proof.
move=> po so; apply: (sorted_eq str_le_trans str_le_antisym) => //.
  exact/sort_sorted/str_le_total.
by rewrite perm_sym perm_sort perm_sym.
Qed.

(* --------------------------------------------------------------------- *)
(* The sorter on non-empty strings                                       *)
(* --------------------------------------------------------------------- *)

Section Sorter.

Variable rt : runtime.

Lemma symbol_le_total : total (symbol_le rt).
Proof. by move=> s t; exact: key_le_total. Qed.

Lemma symbol_le_trans : transitive (symbol_le rt).
Proof. by move=> t s u; exact: key_le_trans. Qed.

Lemma nonempty_strsP values :
  all nonempty_str values ->
  exists2 ss, values = [seq PyStr s | s <- ss] & all (fun s => s != [::]) ss.
Proof.
elim: values => [_|[] //= s values IH /andP[ns /IH[ss -> nss]]].
  by exists [::].
by exists (s :: ss) => //=; rewrite ns.
Qed.

Lemma all_nonempty_str ss :
  all nonempty_str [seq PyStr s | s <- ss] = all (fun s => s != [::]) ss.
Proof. by rewrite all_map. Qed.

Lemma sort_key_str s :
  s != [::] -> sort_key rt (PyStr s) = Ok (starts_with_digit rt s, PyStr s).
Proof. by case: s => [|c s] //= _; rewrite /sort_key /= /str_isdigit /= andbT. Qed.

Lemma sort_key_empty : sort_key rt (PyStr [::]) = Raise IndexError.
Proof. by []. Qed.

Lemma sort_keys_strs ss :
  all (fun s => s != [::]) ss ->
  map_result (sort_key rt) [seq PyStr s | s <- ss]
  = Ok [seq (k.1, PyStr k.2) | k <- [seq str_key rt s | s <- ss]].
Proof.
elim: ss => [|s ss IH] //= /andP[ns /IH ->].
by rewrite sort_key_str.
Qed.

Lemma as_str_keysK (ks : seq (bool * pystr)) :
  as_str_keys [seq (k.1, PyStr k.2) | k <- ks] = Some ks.
Proof. by elim: ks => [|[b s] ks IH] //=; rewrite IH. Qed.

Lemma as_strsK ss : as_strs [seq PyStr s | s <- ss] = Some ss.
Proof. by elim: ss => [|s ss IH] //=; rewrite IH. Qed.

(* On non-empty strings both sorters are the stable sort by key_le. *)
Lemma custom_sort_strs ss :
  all (fun s => s != [::]) ss ->
  custom_sort rt [seq PyStr s | s <- ss]
  = Ok [seq PyStr s | s <- sort_strs rt ss].
Proof.
move=> nss; rewrite /custom_sort sort_keys_strs //= /sorted_keys as_str_keysK /=.
by rewrite /sorted_with sort_map -!map_comp.
Qed.

Lemma sort_symbols_custom_sort symbols :
  sort_symbols rt symbols = custom_sort rt symbols.
Proof. by []. Qed.

Lemma sort_strs_sorted ss : sorted (symbol_le rt) (sort_strs rt ss).
Proof. exact/sort_sorted/symbol_le_total. Qed.

Lemma sort_strs_nonempty ss :
  all (fun s => s != [::]) (sort_strs rt ss) = all (fun s => s != [::]) ss.
Proof. exact: all_sort. Qed.

Lemma sort_strs_perm ss : perm_eq (sort_strs rt ss) ss.
Proof. by rewrite perm_sort. Qed.

(* The output of the sorter holds the symbols of the input, each as many
   times as the input does. *)
Lemma custom_sort_perm ss :
  all (fun s => s != [::]) ss ->
  exists2 out, custom_sort rt [seq PyStr s | s <- ss] = Ok [seq PyStr s | s <- out]
             & perm_eq out ss.
Proof.
by move=> nss; exists (sort_strs rt ss); [exact: custom_sort_strs | exact: sort_strs_perm].
Qed.

(* A list sorted by key has every digit-led symbol after every other one. *)
Lemma sorted_split ss :
  sorted (symbol_le rt) ss ->
  ss = [seq s <- ss | ~~ starts_with_digit rt s]
       ++ [seq s <- ss | starts_with_digit rt s].
Proof.
elim: ss => [|s ss IH] //=.
rewrite (path_sortedE symbol_le_trans) => /andP[les srt].
case ds: (starts_with_digit rt s) => /=; last by rewrite -IH.
have dss : all (starts_with_digit rt) ss.
  apply: sub_all les => t; rewrite /symbol_le /= key_leE /= ds /=.
  by case/andP=> /eqP <-.
have -> : [seq t <- ss | ~~ starts_with_digit rt t] = [::].
  by apply/eqP; rewrite -(negbK (_ == _)) -has_filter -all_predC;
     apply: sub_all dss => t /=; rewrite negbK.
by rewrite /=; congr (_ :: _); apply/esym/all_filterP.
Qed.

(* Inside one of the two groups the key order is the order of str. *)
Lemma sorted_group (b : bool) ss :
  all (fun s => starts_with_digit rt s == b) ss ->
  sorted (symbol_le rt) ss -> sorted str_le ss.
Proof.
apply: sub_in_sorted => s t /eqP ds /eqP dt.
by rewrite /symbol_le /= key_leE /= ds dt eqxx andNb.
Qed.

End Sorter.

(** C1: on a list of non-empty strings, custom_sort and sort_symbols return
    a list made of the symbols whose first character is not a digit followed
    by the symbols whose first character is a digit, and each of the two
    groups is in ascending lexicographic order. *)
Theorem sort_partitions (rt : runtime) (values : seq pyobj) :
  all nonempty_str values ->
  exists letters digits : seq pystr,
    [/\ custom_sort rt values = Ok [seq PyStr s | s <- letters ++ digits],
        sort_symbols rt values = Ok [seq PyStr s | s <- letters ++ digits],
        all (fun s => ~~ starts_with_digit rt s) letters
          /\ all (starts_with_digit rt) digits
      & sorted str_le letters /\ sorted str_le digits].
Proof.
case/nonempty_strsP=> ss -> nss.
set out := sort_strs rt ss.
have srt : sorted (symbol_le rt) out by exact: sort_strs_sorted.
exists [seq s <- out | ~~ starts_with_digit rt s],
       [seq s <- out | starts_with_digit rt s].
rewrite -(sorted_split srt) sort_symbols_custom_sort custom_sort_strs //.
split=> //; first by split; exact: filter_all.
split.
- apply: (@sorted_group rt false); last exact/sorted_filter/srt/symbol_le_trans.
  by apply/allP=> s; rewrite mem_filter => /andP[/negbTE ->].
- apply: (@sorted_group rt true); last exact/sorted_filter/srt/symbol_le_trans.
  by apply/allP=> s; rewrite mem_filter => /andP[->].
Qed.

(** C7: the sort is idempotent on lists of non-empty strings: custom_sort
    and sort_symbols return a list on which they return that same list. *)
Theorem sort_idempotent (rt : runtime) (values : seq pyobj) :
  all nonempty_str values ->
  exists out : seq pyobj,
    [/\ custom_sort rt values = Ok out, custom_sort rt out = Ok out,
        sort_symbols rt values = Ok out & sort_symbols rt out = Ok out].
Proof.
case/nonempty_strsP=> ss -> nss.
exists [seq PyStr s | s <- sort_strs rt ss].
rewrite !sort_symbols_custom_sort !custom_sort_strs ?sort_strs_nonempty //.
have -> : sort_strs rt (sort_strs rt ss) = sort_strs rt ss.
  exact/sorted_sort/sort_strs_sorted/symbol_le_trans.
by split.
Qed.

(** C9: when every symbol of the input is a non-empty string, no key
    computation indexes into an empty string (item[0] succeeds for each
    item and so does each key), and custom_sort and sort_symbols both
    return a list. *)
Theorem sort_total (rt : runtime) (values : seq pyobj) :
  all nonempty_str values ->
  [/\ all (fun item => is_ok (getitem0 item)) values,
      all (fun item => is_ok (sort_key rt item)) values,
      is_ok (custom_sort rt values) & is_ok (sort_symbols rt values)].
Proof.
move=> nsv; split.
- by apply: sub_all nsv => -[] //= [].
- by apply: sub_all nsv => -[] //= s ns; rewrite sort_key_str.
- by case/nonempty_strsP: nsv => ss -> nss; rewrite custom_sort_strs.
- by case/nonempty_strsP: nsv => ss -> nss;
     rewrite sort_symbols_custom_sort custom_sort_strs.
Qed.

(* --------------------------------------------------------------------- *)
(* The extractors                                                        *)
(* --------------------------------------------------------------------- *)

(* The console loop on dict records: the truthy symbol fields of the
   qualifying records, appended in payload order. *)
Lemma extract_loop_dicts (records : seq record) (symbols : seq pyobj) :
  extract_loop [seq PyDict r | r <- records] symbols
  = Ok (symbols ++ [seq x <- wanted records | truthy x]).
Proof.
rewrite /wanted; elim: records symbols => [|r records IH] symbols /=.
  by rewrite cats0.
rewrite /qualifies /field.
case: (eq_str _ PERPETUAL) => //=.
case: (eq_str _ USDT) => //=.
by case: ifP => _; rewrite IH // -cats1 -catA.
Qed.

(* The file variant's comprehension on dict records: KeyError as soon as a
   qualifying record has no symbol field, else every symbol field of the
   qualifying records. *)
Lemma comprehension_dicts (records : seq record) (symbols : seq pyobj) :
  comprehension [seq PyDict r | r <- records] symbols
  = if all (fun r => qualifies r ==> has_symbol r) records
    then Ok (symbols ++ wanted records) else Raise KeyError.
Proof.
rewrite /wanted; elim: records symbols => [|r records IH] symbols /=.
  by rewrite cats0.
rewrite /qualifies /has_symbol /field.
case: (eq_str _ PERPETUAL) => //=.
case: (eq_str _ USDT) => //=.
by case: (lookup r (str "symbol")) => [x|] //=; rewrite IH -cats1 -catA.
Qed.

Lemma extract_dicts (top : record) (records : seq record) :
  lookup top (str "symbols") = Some (PyList [seq PyDict r | r <- records]) ->
  extract_usdt_perpetual_symbols (PyDict top)
  = Ok [seq x <- wanted records | truthy x].
Proof.
by move=> et; rewrite /extract_usdt_perpetual_symbols /= et /= extract_loop_dicts.
Qed.

Lemma comprehension_of_payload (top : record) (records : seq record) :
  lookup top (str "symbols") = Some (PyList [seq PyDict r | r <- records]) ->
  (items <- getitem (PyDict top) (str "symbols");; infos <- iter items;;
   comprehension infos [::])
  = if all (fun r => qualifies r ==> has_symbol r) records
    then Ok (wanted records) else Raise KeyError.
Proof. by move=> et; rewrite /= et /= comprehension_dicts. Qed.

(* Whatever the items are, the console loop appends truthy objects only. *)
Lemma extract_loop_truthy infos symbols out :
  all truthy symbols -> extract_loop infos symbols = Ok out -> all truthy out.
Proof.
elim: infos symbols => [|info infos IH] symbols /= ts; first by case=> <-.
case: (get info _) => //= ct; case: ifP => _; first exact: IH.
case: (get info _) => //= qa; case: ifP => _; first exact: IH.
case: (get info _) => //= symbol; case: ifP => tsym; last exact: IH.
by apply: IH; rewrite all_rcons tsym.
Qed.

Lemma extract_truthy payload symbols :
  extract_usdt_perpetual_symbols payload = Ok symbols -> all truthy symbols.
Proof.
rewrite /extract_usdt_perpetual_symbols.
case: (get_default _ _ _) => //= records; case: (iter records) => //= infos.
exact: extract_loop_truthy.
Qed.

Lemma truthy_getitem0 x : truthy x -> ~~ raises (getitem0 x) IndexError.
Proof. by case: x => //= -[]. Qed.

Lemma sort_key_IndexError rt x :
  raises (sort_key rt x) IndexError -> raises (getitem0 x) IndexError.
Proof. by rewrite /sort_key; case: (getitem0 x) => //= -[]. Qed.

Lemma map_result_raises A B (f : A -> result B) e xs :
  all (fun x => ~~ raises (f x) e) xs -> ~~ raises (map_result f xs) e.
Proof.
elim: xs => [|x xs IH] //= /andP[].
by case: (f x) => //= y _ /IH; case: (map_result f xs).
Qed.

Lemma sorted_keys_raises rt ks e :
  raises (sorted_keys rt ks) e -> e = TypeError.
Proof.
rewrite /sorted_keys; case: (as_str_keys ks) => //.
by case: (sorted_keys_mixed rt ks) => //=; case: e.
Qed.

(** C4: the claim that a record missing symbol, contractType or quoteAsset
    is skipped without an error in both variants fails in the file variant:
    on a payload whose only record qualifies and has no symbol field,
    fetch_symbols raises KeyError and the run ends on the uncaught
    exception with nothing written, where the console extractor skips the
    record and returns the empty list. *)
Theorem missing_symbol_raises (rt : runtime) :
  [/\ symbols_of_payload rt nameless_payload = Raise KeyError,
      fetch_symbols rt (Replied 200 (Ok nameless_payload)) = Raise KeyError,
      fetch_pairs.main rt (Replied 200 (Ok nameless_payload))
        = Outcome [::] [:: Traceback KeyError] None 1
    & extract_usdt_perpetual_symbols nameless_payload = Ok [::]].
Proof. by split; vm_compute. Qed.

(** C6: on a payload whose symbols entry is a list of dict records, the
    qualifying ones carrying the str symbols ss (in payload order),
    fetch_symbols returns the sort of the set of ss, a list without
    duplicates that has the members of ss, while
    extract_usdt_perpetual_symbols returns the non-empty strings of ss in
    payload order, every repetition kept. *)
Theorem dedup_divergence (rt : runtime) (top : record)
    (records : seq record) (ss : seq pystr) :
  lookup top (str "symbols") = Some (PyList [seq PyDict r | r <- records]) ->
  [seq lookup r (str "symbol") | r <- records & qualifies r]
    = [seq Some (PyStr s) | s <- ss] ->
  let payload := PyDict top in
  let collapsed := sorted_with str_lt (undup ss) in
  [/\ symbols_of_payload rt payload = Ok [seq PyStr s | s <- collapsed],
      uniq collapsed,
      collapsed =i ss
    & extract_usdt_perpetual_symbols payload
        = Ok [seq PyStr s | s <- ss & s != [::]]].
Proof.
move=> et Hss /=.
have wss : wanted records = [seq PyStr s | s <- ss].
  by rewrite /wanted /field (map_comp (odflt PyNone)) Hss -map_comp.
have hs : all (fun r => qualifies r ==> has_symbol r) records.
  rewrite -(all_filter has_symbol) /has_symbol.
  rewrite -(all_map (fun r => lookup r (str "symbol")) isSome) Hss.
  by rewrite all_map; apply/allP.
split.
- rewrite /symbols_of_payload /= et /= comprehension_dicts hs /= wss.
  by rewrite /sorted_set as_strsK.
- by rewrite sort_uniq undup_uniq.
- by move=> s; rewrite mem_sort mem_undup.
- by rewrite (extract_dicts et) wss filter_map.
Qed.

(** C8: on the payload with BTCUSDT and 1000PEPEUSDT (perpetual, quoted in
    USDT) and BTCUSD (quoted in USD), extraction followed by sorting yields
    exactly BTCUSDT, 1000PEPEUSDT, in both variants, and that is what the
    console variant prints and the file variant writes. *)
Theorem example_end_to_end (rt : runtime) :
  let expected := [:: PyStr (str "BTCUSDT"); PyStr (str "1000PEPEUSDT")] in
  let reply := Replied 200 (Ok example_payload) in
  [/\ (symbols <- extract_usdt_perpetual_symbols example_payload;;
       sort_symbols rt symbols) = Ok expected,
      (symbols <- symbols_of_payload rt example_payload;;
       custom_sort rt symbols) = Ok expected,
      stdout (fetch_usdt_perpetual_pairs.main rt reply) = [seq Symbol s | s <- expected]
    & written (fetch_pairs.main rt reply) = Some expected].
Proof. by split; vm_compute. Qed.

(** C10: every object in the list extract_usdt_perpetual_symbols returns is
    truthy, so every str in it is non-empty; no sort key computed on it
    raises IndexError, and neither does sort_symbols applied to it. *)
Theorem extracted_symbols_nonempty (rt : runtime) (payload : pyobj)
    (symbols : seq pyobj) :
  extract_usdt_perpetual_symbols payload = Ok symbols ->
  [/\ all truthy symbols,
      all (fun x => if x is PyStr s then s != [::] else true) symbols,
      all (fun x => ~~ raises (sort_key rt x) IndexError) symbols
    & ~~ raises (sort_symbols rt symbols) IndexError].
Proof.
move/extract_truthy=> ts.
have nk : all (fun x => ~~ raises (sort_key rt x) IndexError) symbols.
  apply: sub_all ts => x tx; apply/negP => /sort_key_IndexError.
  exact/negP/truthy_getitem0.
split=> //; first by apply: sub_all ts; case.
rewrite /sort_symbols.
case ek: (map_result (sort_key rt) symbols) (map_result_raises nk) => [ks|e] //= _.
case es: (sorted_keys rt ks) => [r|e] //=.
by apply/negP=> ee; move: (@sorted_keys_raises rt ks IndexError); rewrite es => /(_ ee).
Qed.

(* --------------------------------------------------------------------- *)
(* The two mains                                                         *)
(* --------------------------------------------------------------------- *)

Lemma cached_symbols_nonempty : all nonempty_str CACHED_SYMBOLS.
Proof. by vm_compute. Qed.

Lemma custom_sort_cached rt :
  exists out, custom_sort rt CACHED_SYMBOLS = Ok out.
Proof.
case/nonempty_strsP: cached_symbols_nonempty => ss -> nss.
by exists [seq PyStr s | s <- sort_strs rt ss]; rewrite custom_sort_strs.
Qed.

(* Every cached symbol goes through the sorter; what main writes on the
   fallback path is the list below (the cached list itself is not in that
   order: AAVE stands after ACM in it). *)
Example custom_sort_cached_value (rt : runtime) :
  custom_sort rt CACHED_SYMBOLS = Ok [seq PyStr (str s) | s <- [::
    "AAVE"; "ACE"; "ACH"; "ACM"; "ADA"; "ADX"; "AERGO"; "AEVO"; "AGIX";
    "AGLD"; "AIOZ"; "AKRO"; "ALGO"; "ALICE"; "ALPACA"; "ALPHA"; "ALPINE";
    "ALT"; "AMB"; "ANKR"; "ANT"; "APE"; "API3"; "APT"; "AR"; "ARB"; "ARK";
    "ARKM"; "ARPA"; "ASR"; "ASTR"; "ATA"; "ATM"; "ATOM"; "AUCTION";
    "AUDIO"; "AVA"; "AVAX"; "AXS"; "BADGER"; "BAKE"; "BAL"; "BAND"; "BAR";
    "BCH"; "BEAMX"; "BEL"; "BETA"; "BICO"; "BIGTIME"; "BLUR"; "BLZ";
    "BNB"; "BNX"; "BOME"; "BOND"; "BSV"; "BTC"; "BTCDOM"; "BTTC"; "C98";
    "CAKE"; "CELO"; "CELR"; "CFX"; "CHESS"; "CHR"; "CHZ"; "CITY"; "CKB";
    "COCOS"; "COMBO"; "COMP"; "COTI"; "CRV"; "CSPR"; "CTK"; "CTSI"; "CVC";
    "CVX"; "CYBER"; "DAR"; "DASH"; "DEFI"; "DENT"; "DEXE"; "DGB"; "DODO";
    "DOGE"; "DOT"; "DUSK"; "DYDX"; "DYM"; "EDU"; "EGLD"; "ENA"; "ENJ";
    "ENS"; "EOS"; "ETC"; "ETH"; "ETHFI"; "FET"; "FIDA"; "FIL"; "FLM";
    "FLOW"; "FLR"; "FOOTBALL"; "FRONT"; "FTM"; "FXS"; "GAL"; "GALA";
    "GAS"; "GF"; "GFT"; "GLMR"; "GMT"; "GMX"; "GRT"; "GTC"; "HBAR"; "HFT";
    "HIFI"; "HIGH"; "HNT"; "HOOK"; "HOT"; "ICP"; "ICX"; "ID"; "ILV";
    "IMX"; "INJ"; "IOST"; "IOTA"; "IOTX"; "JASMY"; "JOE"; "JTO"; "JUP";
    "JUV"; "KAS"; "KAVA"; "KEY"; "KLAY"; "KNC"; "KSM"; "LAZIO"; "LDO";
    "LEVER"; "LINA"; "LINK"; "LISTA"; "LIT"; "LOKA"; "LOOKS"; "LOOM";
    "LPT"; "LQTY"; "LRC"; "LTC"; "LTO"; "LUNA2"; "LUNC"; "MAGIC"; "MANA";
    "MANTA"; "MASK"; "MATIC"; "MAV"; "MAVIA"; "MBOX"; "MDT"; "MEME";
    "MINA"; "MKR"; "MTL"; "NEAR"; "NEO"; "NFP"; "NKN"; "NMR"; "NOT";
    "NTRN"; "OCEAN"; "OG"; "OM"; "OMG"; "OMNI"; "ONDO"; "ONT"; "OP";
    "ORDI"; "PAXG"; "PENDLE"; "PEOPLE"; "PEPE"; "PERP"; "PHA"; "PHB";
    "PIXEL"; "PLA"; "POL"; "POLS"; "POLYX"; "POND"; "PORTAL"; "PORTO";
    "POWR"; "PROM"; "PSG"; "PYTH"; "QI"; "QNT"; "QTUM"; "RAD"; "RAY";
    "RBN"; "RDNT"; "REEF"; "REI"; "REN"; "RLC"; "RNDR"; "ROSE"; "RPL";
    "RSR"; "RUNE"; "RVN"; "SAGA"; "SAND"; "SANTOS"; "SC"; "SEI"; "SFP";
    "SHIB"; "SKL"; "SLP"; "SNX"; "SOL"; "SPELL"; "SSV"; "STG"; "STMX";
    "STORJ"; "STPT"; "STRAX"; "STRK"; "STX"; "SUI"; "SUN"; "SUPER";
    "SUSHI"; "SXP"; "SYN"; "T"; "TAO"; "THETA"; "TIA"; "TLM"; "TNSR";
    "TOMO"; "TON"; "TRB"; "TRU"; "TRX"; "TURBO"; "TWT"; "UMA"; "UNFI";
    "UNI"; "USDC"; "UTK"; "VANRY"; "VET"; "VOXEL"; "WAVES"; "WIF"; "WLD";
    "WOO"; "XAI"; "XEC"; "XEM"; "XLM"; "XRP"; "XTZ"; "XVG"; "XVS"; "YFI";
    "YGG"; "ZEC"; "ZEN"; "ZETA"; "ZIL"; "ZK"; "ZRO"; "ZRX"; "1000BONK";
    "1000FLOKI"; "1000LUNC"; "1000PEPE"; "1000SATS"; "1000SHIB"; "1INCH"
  ]%string].
Proof. vm_compute; reflexivity. Qed.

Example cached_symbols_not_in_order (rt : runtime) :
  custom_sort rt CACHED_SYMBOLS <> Ok CACHED_SYMBOLS.
Proof.
rewrite custom_sort_cached_value.
move/(congr1 (fun r => if r is Ok (PyStr s :: _) then s else [::])).
by vm_compute.
Qed.

(* How the fetch of each variant fails, by the way the exchange ends. *)
Lemma fetch_symbols_raises rt t :
  fetch_symbols rt t =
  match t with
  | TransportError e => Raise e
  | Replied st body =>
      if (200 <= st) && (st < 300)
      then payload <- body;; symbols_of_payload rt payload
      else Raise HTTPError
  end.
Proof. by case: t => [e|st body] //=; rewrite /fetch_symbols /=; case: ifP. Qed.

Lemma fetch_exchange_info_raises t :
  fetch_exchange_info t =
  match t with
  | TransportError e => Raise e
  | Replied st body =>
      if (200 <= st) && (st < 300)
      then (if st != 200 then Raise RuntimeError else body)
      else Raise HTTPError
  end.
Proof. by case: t => [e|st body] //=; rewrite /fetch_exchange_info /=; case: ifP. Qed.

Lemma isinstance_URLError_caught exc :
  isinstance exc URLError -> caught_by [:: URLError; HTTPError] exc.
Proof. by rewrite /caught_by /= => ->. Qed.

Lemma main_fallback rt t exc out :
  fetch_symbols rt t = Raise exc -> isinstance exc URLError ->
  custom_sort rt CACHED_SYMBOLS = Ok out ->
  fetch_pairs.main rt t = Outcome [:: Warning exc; Saved (size out)] [::] (Some out) 0.
Proof.
move=> ef /isinstance_URLError_caught ce es.
by rewrite /fetch_pairs.main ef ce /save es.
Qed.

(** C2, amended: in the file variant, when fetch_symbols fails with URLError
    or its subclass HTTPError, the failure is not propagated: the warning is
    printed, CACHED_SYMBOLS is substituted and goes through custom_sort,
    the sorted list is written and the process exits 0. *)
Theorem fallback_on_URLError (rt : runtime) (t : transport) (exc : exn) :
  fetch_symbols rt t = Raise exc -> isinstance exc URLError ->
  exists out : seq pyobj,
    custom_sort rt CACHED_SYMBOLS = Ok out /\
    fetch_pairs.main rt t
      = Outcome [:: Warning exc; Saved (size out)] [::] (Some out) 0.
Proof.
move=> ef ie; case: (custom_sort_cached rt) => out es.
exists out; split; [exact: es | exact: main_fallback].
Qed.

(** C3: in the console variant, when fetching or extracting raises, nothing
    is printed on standard output, one message goes to the error stream
    (the Failed to retrieve symbols message for URLError, HTTPError,
    RuntimeError and JSONDecodeError, the traceback otherwise), the exit
    status is 1 and no list is substituted for the missing one. *)
Theorem console_failure (rt : runtime) (t : transport) (exc : exn) :
  (payload <- fetch_exchange_info t;;
   extract_usdt_perpetual_symbols payload) = Raise exc ->
  let run := fetch_usdt_perpetual_pairs.main rt t in
  [/\ stdout run = [::],
      stderr run =
        [:: if caught_by [:: URLError; RuntimeError; JSONDecodeError] exc
            then Failed exc else Traceback exc],
      exit_status run = 1
    & written run = None].
Proof. by rewrite /fetch_usdt_perpetual_pairs.main => -> /=; case: ifP. Qed.

(* On the failures the handler names (urlopen raises URLError or
   HTTPError), the list written to the output file is custom_sort of
   CACHED_SYMBOLS and the exit status is 0. *)
Theorem fallback_output (rt : runtime) (t : transport) (exc : exn) :
  urlopen t = Raise exc -> isinstance exc URLError ->
  exists out : seq pyobj,
    [/\ custom_sort rt CACHED_SYMBOLS = Ok out,
        written (fetch_pairs.main rt t) = Some out
      & exit_status (fetch_pairs.main rt t) = 0].
Proof.
move=> eu ie; case: (custom_sort_cached rt) => out es; exists out.
have ef : fetch_symbols rt t = Raise exc by rewrite /fetch_symbols eu.
rewrite (main_fallback ef ie es); split; [exact: es | by [] | by []].
Qed.

(** C5: the claim that a failed network fetch leaves custom_sort of
    CACHED_SYMBOLS in the output file and the exit status at 0 fails on a
    timeout that reaches main as TimeoutError, raised while urlopen waits
    for the reply or while json.load reads it: TimeoutError is no URLError,
    the handler does not take it, the run ends on the uncaught exception,
    nothing is written and the exit status is 1. *)
Theorem network_timeout_not_absorbed (rt : runtime) :
  [/\ isinstance TimeoutError URLError = false,
      fetch_symbols rt stalled = Raise TimeoutError,
      fetch_pairs.main rt stalled
        = Outcome [::] [:: Traceback TimeoutError] None 1
    & fetch_pairs.main rt stalled_body
        = Outcome [::] [:: Traceback TimeoutError] None 1].
Proof. by []. Qed.

(* The exceptions the handler of the console main names, and the one
   subclass among those the fetch raises. *)
Lemma console_handler_classes :
  all (caught_by [:: URLError; RuntimeError; JSONDecodeError])
      [:: URLError; HTTPError; RuntimeError; JSONDecodeError].
Proof. by []. Qed.

(* --------------------------------------------------------------------- *)
(* Instances                                                             *)
(* --------------------------------------------------------------------- *)

Lemma sort_partitions_sample :
  all nonempty_str sample_symbols /\
  exists letters digits : seq pystr,
    [/\ custom_sort ascii_runtime sample_symbols
          = Ok [seq PyStr s | s <- letters ++ digits],
        sort_symbols ascii_runtime sample_symbols
          = Ok [seq PyStr s | s <- letters ++ digits],
        all (fun s => ~~ starts_with_digit ascii_runtime s) letters
          /\ all (starts_with_digit ascii_runtime) digits
      & sorted str_le letters /\ sorted str_le digits].
Proof.
split; [reflexivity | apply (@sort_partitions ascii_runtime sample_symbols)].
reflexivity.
Defined.

Lemma sort_idempotent_sample :
  all nonempty_str sample_symbols /\
  exists out : seq pyobj,
    [/\ custom_sort ascii_runtime sample_symbols = Ok out,
        custom_sort ascii_runtime out = Ok out,
        sort_symbols ascii_runtime sample_symbols = Ok out
      & sort_symbols ascii_runtime out = Ok out].
Proof.
split; [reflexivity | apply (@sort_idempotent ascii_runtime sample_symbols)].
reflexivity.
Defined.

Lemma sort_total_sample :
  all nonempty_str sample_symbols /\
  [/\ all (fun item => is_ok (getitem0 item)) sample_symbols,
      all (fun item => is_ok (sort_key ascii_runtime item)) sample_symbols,
      is_ok (custom_sort ascii_runtime sample_symbols)
    & is_ok (sort_symbols ascii_runtime sample_symbols)].
Proof.
split; [reflexivity | apply (@sort_total ascii_runtime sample_symbols)].
reflexivity.
Defined.

Lemma fallback_on_URLError_unavailable :
  (fetch_symbols ascii_runtime unavailable = Raise HTTPError
   /\ isinstance HTTPError URLError) /\
  exists out : seq pyobj,
    custom_sort ascii_runtime CACHED_SYMBOLS = Ok out /\
    fetch_pairs.main ascii_runtime unavailable
      = Outcome [:: Warning HTTPError; Saved (size out)] [::] (Some out) 0.
Proof.
split; [split; reflexivity |].
apply (@fallback_on_URLError ascii_runtime unavailable HTTPError); reflexivity.
Defined.

(* C2 as it is stated fails on a reply whose body is not valid JSON: the
   JSONDecodeError is not among the handled classes, no warning is printed,
   nothing is written and the exit status is 1. *)
Lemma garbled_reply_propagates :
  fetch_symbols ascii_runtime garbled = Raise JSONDecodeError /\
  fetch_pairs.main ascii_runtime garbled
    = Outcome [::] [:: Traceback JSONDecodeError] None 1.
Proof. split; reflexivity. Qed.

Lemma console_failure_no_content :
  (payload <- fetch_exchange_info no_content;;
   extract_usdt_perpetual_symbols payload) = Raise RuntimeError /\
  let run := fetch_usdt_perpetual_pairs.main ascii_runtime no_content in
  [/\ stdout run = [::],
      stderr run =
        [:: if caught_by [:: URLError; RuntimeError; JSONDecodeError] RuntimeError
            then Failed RuntimeError else Traceback RuntimeError],
      exit_status run = 1
    & written run = None].
Proof.
split; [reflexivity |].
apply (@console_failure ascii_runtime no_content RuntimeError); reflexivity.
Defined.

Lemma fallback_output_unreachable :
  (urlopen unreachable = Raise URLError /\ isinstance URLError URLError) /\
  exists out : seq pyobj,
    [/\ custom_sort ascii_runtime CACHED_SYMBOLS = Ok out,
        written (fetch_pairs.main ascii_runtime unreachable) = Some out
      & exit_status (fetch_pairs.main ascii_runtime unreachable) = 0].
Proof.
split; [split; reflexivity |].
apply (@fallback_output ascii_runtime unreachable URLError); reflexivity.
Defined.

Lemma dedup_divergence_ragged :
  (lookup ragged_top (str "symbols")
     = Some (PyList [seq PyDict r | r <- ragged_records])
   /\ [seq lookup r (str "symbol") | r <- ragged_records & qualifies r]
      = [seq Some (PyStr s) | s <- ragged_symbols]) /\
  let payload := PyDict ragged_top in
  let collapsed := sorted_with str_lt (undup ragged_symbols) in
  [/\ symbols_of_payload ascii_runtime payload
        = Ok [seq PyStr s | s <- collapsed],
      uniq collapsed,
      collapsed =i ragged_symbols
    & extract_usdt_perpetual_symbols payload
        = Ok [seq PyStr s | s <- ragged_symbols & s != [::]]].
Proof.
split; [split; reflexivity |].
apply (@dedup_divergence ascii_runtime ragged_top ragged_records ragged_symbols);
  reflexivity.
Defined.

Lemma extracted_symbols_nonempty_ragged :
  let symbols :=
    [:: PyStr (str "ETHUSDT"); PyStr (str "1INCHUSDT"); PyStr (str "ETHUSDT")] in
  extract_usdt_perpetual_symbols ragged_payload = Ok symbols /\
  [/\ all truthy symbols,
      all (fun x => if x is PyStr s then s != [::] else true) symbols,
      all (fun x => ~~ raises (sort_key ascii_runtime x) IndexError) symbols
    & ~~ raises (sort_symbols ascii_runtime symbols) IndexError].
Proof.
split; [reflexivity |].
apply (@extracted_symbols_nonempty ascii_runtime ragged_payload); reflexivity.
Defined.

(* The two variants on the ragged payload: one ETHUSDT against two. *)
Example ragged_file :
  symbols_of_payload ascii_runtime ragged_payload
  = Ok [:: PyStr [::]; PyStr (str "1INCHUSDT"); PyStr (str "ETHUSDT")].
Proof. by vm_compute. Qed.

Example ragged_console :
  (symbols <- extract_usdt_perpetual_symbols ragged_payload;;
   sort_symbols ascii_runtime symbols)
  = Ok [:: PyStr (str "ETHUSDT"); PyStr (str "ETHUSDT"); PyStr (str "1INCHUSDT")].
Proof. by vm_compute. Qed.

(* ===================================================================== *)
(* Further properties of the sorters                                     *)
(* ===================================================================== *)

Section SorterEdges.

Variable rt : runtime.

Lemma symbol_le_antisym : antisymmetric (symbol_le rt).
Proof. by move=> s t /key_le_antisym[]. Qed.

(* The sorter sees the symbols, not the order they come in. *)
Lemma sort_strs_perm_eq s1 s2 :
  perm_eq s1 s2 -> sort_strs rt s1 = sort_strs rt s2.
Proof.
by move/(perm_sortP (symbol_le_total rt) (@symbol_le_trans rt)
           symbol_le_antisym).
Qed.

Lemma sort_keys_strs_empty ss :
  has (fun s => s == [::]) ss ->
  map_result (sort_key rt) [seq PyStr s | s <- ss] = Raise IndexError.
Proof.
by elim: ss => [|[|c s] ss IH] //= /IH ->.
Qed.

Lemma custom_sort_strs_empty ss :
  has (fun s => s == [::]) ss ->
  custom_sort rt [seq PyStr s | s <- ss] = Raise IndexError.
Proof. by rewrite /custom_sort => /sort_keys_strs_empty ->. Qed.

Lemma custom_sort_strsE ss :
  custom_sort rt [seq PyStr s | s <- ss]
  = if all (fun s => s != [::]) ss
    then Ok [seq PyStr s | s <- sort_strs rt ss] else Raise IndexError.
Proof.
case: ifP => [|/negbT]; first exact: custom_sort_strs.
rewrite -has_predC => he; apply: custom_sort_strs_empty.
by apply: sub_has he => s /=; rewrite negbK.
Qed.

Lemma sort_key_ok x : is_ok (sort_key rt x) = sortable x.
Proof. by case: x => //= -[|[] //= ? ?] //. Qed.

Lemma map_result_ok A B (f : A -> result B) xs :
  is_ok (map_result f xs) = all (fun x => is_ok (f x)) xs.
Proof.
elim: xs => [|x xs IH] //=.
by case: (f x) => //= y; rewrite -IH; case: (map_result f xs).
Qed.

(* The items before the first one whose key fails change nothing. *)
Lemma map_result_first_failure A B (f : A -> result B) pre x post e :
  all (fun y => is_ok (f y)) pre -> f x = Raise e ->
  map_result f (pre ++ x :: post) = Raise e.
Proof.
move=> okp fx; elim: pre okp => [|y pre IH] /=; first by rewrite fx.
by case: (f y) => //= z /IH ->.
Qed.

(* Inside one of the two groups the order of str is the key order. *)
Lemma group_sorted (b : bool) ss :
  all (fun s => starts_with_digit rt s == b) ss ->
  sorted str_le ss -> sorted (symbol_le rt) ss.
Proof.
apply: sub_in_sorted => s t /eqP ds /eqP dt.
by rewrite /symbol_le /= key_leE /= ds dt eqxx andNb.
Qed.

(* A str-sorted list with its digit-led symbols moved to the end is in
   key order. *)
Lemma split_sorted ss :
  sorted str_le ss ->
  sorted (symbol_le rt)
    ([seq s <- ss | ~~ starts_with_digit rt s]
     ++ [seq s <- ss | starts_with_digit rt s]).
Proof.
move=> srt; rewrite (sorted_pairwise (@symbol_le_trans rt)) pairwise_cat.
rewrite -!(sorted_pairwise (@symbol_le_trans rt)).
apply/and3P; split.
- apply/allrelP=> s t; rewrite !mem_filter => /andP[nds _] /andP[dt _].
  by rewrite /symbol_le /= key_leE /= nds dt.
- apply: (@group_sorted false); last exact: sorted_filter str_le_trans _ _ srt.
  by apply/allP=> s; rewrite mem_filter => /andP[/negbTE ->].
- apply: (@group_sorted true); last exact: sorted_filter str_le_trans _ _ srt.
  by apply/allP=> s; rewrite mem_filter => /andP[->].
Qed.

Lemma sort_strs_of_sorted ss :
  sorted str_le ss ->
  sort_strs rt ss = [seq s <- ss | ~~ starts_with_digit rt s]
                    ++ [seq s <- ss | starts_with_digit rt s].
Proof.
move=> srt.
apply: (sorted_eq (@symbol_le_trans rt) symbol_le_antisym).
- exact: sort_strs_sorted.
- exact: split_sorted.
- rewrite perm_sort perm_sym.
  have -> : [seq s <- ss | starts_with_digit rt s]
            = [seq s <- ss | predC (fun s => ~~ starts_with_digit rt s) s].
    by apply: eq_filter => s /=; rewrite negbK.
  by rewrite perm_filterC.
Qed.

End SorterEdges.

(** X1: on non-empty strings the sorters neither drop nor add a symbol:
    the list returned is a permutation of the input, of the same length. *)
Theorem sorter_permutes (rt : runtime) (ss : seq pystr) :
  all (fun s => s != [::]) ss ->
  exists out : seq pystr,
    [/\ custom_sort rt [seq PyStr s | s <- ss] = Ok [seq PyStr s | s <- out],
        sort_symbols rt [seq PyStr s | s <- ss] = Ok [seq PyStr s | s <- out],
        perm_eq out ss
      & size out = size ss].
Proof.
move=> nss; exists (sort_strs rt ss).
rewrite sort_symbols_custom_sort custom_sort_strs //.
by split=> //; [exact: sort_strs_perm | exact: size_sort].
Qed.

(** X2: on a list of str objects the sorters return exactly when no symbol
    is the empty string; as soon as one is, they raise IndexError. *)
Theorem sorter_empty_string (rt : runtime) (ss : seq pystr) :
  custom_sort rt [seq PyStr s | s <- ss]
  = (if all (fun s => s != [::]) ss
     then Ok [seq PyStr s | s <- sort_strs rt ss] else Raise IndexError)
  /\ sort_symbols rt [seq PyStr s | s <- ss]
     = (if all (fun s => s != [::]) ss
        then Ok [seq PyStr s | s <- sort_strs rt ss] else Raise IndexError).
Proof. by rewrite sort_symbols_custom_sort custom_sort_strsE. Qed.

(** X3: the keys are computed in list order before any comparison, so the
    sorters raise the exception of the first item whose key fails, whatever
    follows it. *)
Theorem sorter_first_failure (rt : runtime) (pre : seq pyobj) (x : pyobj)
    (post : seq pyobj) (e : exn) :
  all sortable pre -> sort_key rt x = Raise e ->
  custom_sort rt (pre ++ x :: post) = Raise e
  /\ sort_symbols rt (pre ++ x :: post) = Raise e.
Proof.
move=> sp kx; rewrite sort_symbols_custom_sort /custom_sort.
rewrite (@map_result_first_failure _ _ (sort_key rt) pre x post e) //.
by apply: sub_all sp => y; rewrite sort_key_ok.
Qed.

(** X4: the sorters return a list only when every item is a non-empty str
    or a list whose first item is a str. *)
Theorem sorter_needs_sortable (rt : runtime) (values : seq pyobj) :
  is_ok (custom_sort rt values) || is_ok (sort_symbols rt values) ->
  all sortable values.
Proof.
rewrite sort_symbols_custom_sort orbb /custom_sort.
case ek: (map_result (sort_key rt) values) => [ks|e] //= _.
have: is_ok (map_result (sort_key rt) values) by rewrite ek.
by rewrite map_result_ok => ok; apply: sub_all ok => x; rewrite sort_key_ok.
Qed.

(** X5: applied to non-empty strings that are already in ascending str
    order, the sorters move the digit-led symbols, in their order, behind
    the others and change nothing else. *)
Theorem sorter_after_str_order (rt : runtime) (ss : seq pystr) :
  sorted str_le ss -> all (fun s => s != [::]) ss ->
  let moved := [seq s <- ss | ~~ starts_with_digit rt s]
               ++ [seq s <- ss | starts_with_digit rt s] in
  custom_sort rt [seq PyStr s | s <- ss] = Ok [seq PyStr s | s <- moved]
  /\ sort_symbols rt [seq PyStr s | s <- ss] = Ok [seq PyStr s | s <- moved].
Proof.
move=> srt nss /=.
by rewrite sort_symbols_custom_sort custom_sort_strs // sort_strs_of_sorted.
Qed.

Lemma sorter_permutes_sample :
  all (fun s => s != [::]) listed_symbols /\
  exists out : seq pystr,
    [/\ custom_sort ascii_runtime [seq PyStr s | s <- listed_symbols]
          = Ok [seq PyStr s | s <- out],
        sort_symbols ascii_runtime [seq PyStr s | s <- listed_symbols]
          = Ok [seq PyStr s | s <- out],
        perm_eq out listed_symbols
      & size out = size listed_symbols].
Proof.
split; [reflexivity | apply (@sorter_permutes ascii_runtime listed_symbols)].
reflexivity.
Defined.

Lemma sorter_first_failure_sample :
  (all sortable [:: PyStr (str "ETHUSDT")]
   /\ sort_key ascii_runtime (PyInt 5) = Raise TypeError) /\
  (custom_sort ascii_runtime
     ([:: PyStr (str "ETHUSDT")] ++ PyInt 5 :: [:: PyStr [::]])
   = Raise TypeError
   /\ sort_symbols ascii_runtime
        ([:: PyStr (str "ETHUSDT")] ++ PyInt 5 :: [:: PyStr [::]])
      = Raise TypeError).
Proof.
split; [split; reflexivity |].
apply (@sorter_first_failure ascii_runtime [:: PyStr (str "ETHUSDT")]
         (PyInt 5) [:: PyStr [::]] TypeError); reflexivity.
Defined.

Lemma sorter_needs_sortable_sample :
  (is_ok (custom_sort ascii_runtime sample_symbols)
   || is_ok (sort_symbols ascii_runtime sample_symbols)) /\
  all sortable sample_symbols.
Proof.
split; [reflexivity | apply (@sorter_needs_sortable ascii_runtime sample_symbols)].
reflexivity.
Defined.

Lemma sorter_after_str_order_sample :
  let ss := [:: str "1INCHUSDT"; str "AAVEUSDT"; str "ETHUSDT"] in
  (sorted str_le ss /\ all (fun s => s != [::]) ss) /\
  let moved := [seq s <- ss | ~~ starts_with_digit ascii_runtime s]
               ++ [seq s <- ss | starts_with_digit ascii_runtime s] in
  custom_sort ascii_runtime [seq PyStr s | s <- ss]
    = Ok [seq PyStr s | s <- moved]
  /\ sort_symbols ascii_runtime [seq PyStr s | s <- ss]
     = Ok [seq PyStr s | s <- moved].
Proof.
split; [split; reflexivity |].
apply (@sorter_after_str_order ascii_runtime
         [:: str "1INCHUSDT"; str "AAVEUSDT"; str "ETHUSDT"]); reflexivity.
Defined.

(* ===================================================================== *)
(* Further properties of the extractors and of the two mains             *)
(* ===================================================================== *)

Section Runs.

Variable rt : runtime.

Lemma carries_wanted top records ss :
  carries top records ss ->
  wanted records = [seq PyStr s | s <- ss]
  /\ all (fun r => qualifies r ==> has_symbol r) records.
Proof.
case=> _ Hss; split.
  by rewrite /wanted /field (map_comp (odflt PyNone)) Hss -map_comp.
rewrite -(all_filter has_symbol) /has_symbol.
rewrite -(all_map (fun r => lookup r (str "symbol")) isSome) Hss.
by rewrite all_map; apply/allP.
Qed.

Lemma symbols_of_payload_dicts top records :
  lookup top (str "symbols") = Some (PyList [seq PyDict r | r <- records]) ->
  symbols_of_payload rt (PyDict top)
  = if all (fun r => qualifies r ==> has_symbol r) records
    then sorted_set rt (wanted records) else Raise KeyError.
Proof.
move=> et; rewrite /symbols_of_payload /= et /= comprehension_dicts.
by case: ifP.
Qed.

Lemma symbols_of_payload_carries top records ss :
  carries top records ss ->
  symbols_of_payload rt (PyDict top)
  = Ok [seq PyStr s | s <- sorted_with str_lt (undup ss)].
Proof.
move=> c; case: (carries_wanted c) => wss hs; case: c => et _.
by rewrite (symbols_of_payload_dicts et) hs wss /sorted_set as_strsK.
Qed.

Lemma extract_carries top records ss :
  carries top records ss ->
  extract_usdt_perpetual_symbols (PyDict top)
  = Ok [seq PyStr s | s <- ss & s != [::]].
Proof.
move=> c; case: (carries_wanted c) => wss _; case: c => et _.
by rewrite (extract_dicts et) wss filter_map.
Qed.

Lemma all_nonempty_collapsed ss :
  all (fun s => s != [::]) (sorted_with str_lt (undup ss))
  = all (fun s => s != [::]) ss.
Proof. by rewrite /sorted_with all_sort (eq_all_r (mem_undup ss)). Qed.

Lemma custom_sort_collapsed ss :
  custom_sort rt [seq PyStr s | s <- sorted_with str_lt (undup ss)]
  = if all (fun s => s != [::]) ss
    then Ok [seq PyStr s | s <- sort_strs rt (undup ss)]
    else Raise IndexError.
Proof.
rewrite custom_sort_strsE all_nonempty_collapsed.
by rewrite (@sort_strs_perm_eq rt _ (undup ss)) // /sorted_with perm_sort.
Qed.

Lemma custom_sort_sorted ss :
  all (fun s => s != [::]) ss ->
  custom_sort rt [seq PyStr s | s <- sort_strs rt ss]
  = Ok [seq PyStr s | s <- sort_strs rt ss].
Proof.
move=> nss; rewrite custom_sort_strs ?sort_strs_nonempty //.
by congr (Ok (map _ _)); exact/sorted_sort/sort_strs_sorted/symbol_le_trans.
Qed.

Lemma fetch_symbols_success st payload :
  success st ->
  fetch_symbols rt (Replied st (Ok payload)) = symbols_of_payload rt payload.
Proof. by rewrite /fetch_symbols /= /success => ->. Qed.

(* The run of the file variant on a reply that carries str symbols. *)
Lemma main_file_carries st top records ss :
  success st -> carries top records ss ->
  fetch_pairs.main rt (Replied st (Ok (PyDict top)))
  = if all (fun s => s != [::]) ss
    then Outcome [:: Saved (size (undup ss))] [::]
           (Some [seq PyStr s | s <- sort_strs rt (undup ss)]) 0
    else Outcome [::] [:: Traceback IndexError] None 1.
Proof.
move=> sst c; rewrite /fetch_pairs.main fetch_symbols_success //.
rewrite (symbols_of_payload_carries c) custom_sort_collapsed.
case: ifP => // nss; rewrite /save custom_sort_sorted /=.
  by rewrite (eq_all_r (mem_undup ss)).
by rewrite size_map size_sort.
Qed.

(* The print loop goes through when sys.stdout takes every symbol. *)
Lemma print_loop_all symbols out :
  all (prints rt) symbols ->
  print_loop rt symbols out
  = Outcome (out ++ [seq Symbol x | x <- symbols]) [::] None 0.
Proof.
elim: symbols out => [|x symbols IH] out /=; first by rewrite cats0.
by case/andP=> -> /IH ->; rewrite -cats1 -catA.
Qed.

(* It stops at the first symbol sys.stdout does not take. *)
Lemma print_loop_first pre x post out :
  all (prints rt) pre -> ~~ prints rt x ->
  print_loop rt (pre ++ x :: post) out
  = Outcome (out ++ [seq Symbol y | y <- pre])
      [:: Traceback UnicodeEncodeError] None 1.
Proof.
move=> pp /negbTE nx; elim: pre out pp => [|y pre IH] out /=.
  by rewrite nx cats0.
by case/andP=> -> /IH ->; rewrite -cats1 -catA.
Qed.

Lemma print_loop_shape symbols out :
  all is_symbol out ->
  let run := print_loop rt symbols out in
  [/\ written run = None, all is_symbol (stdout run)
    & (exit_status run = 0 /\ stderr run = [::])
      \/ (exit_status run = 1
          /\ stderr run = [:: Traceback UnicodeEncodeError])].
Proof.
elim: symbols out => [|x symbols IH] out so /=; first by split=> //; left.
case: ifP => _; last by split=> //; right.
by apply: IH; rewrite all_rcons.
Qed.

(* The run of the console variant on the same, up to the print loop. *)
Lemma main_console_sorted top records ss :
  carries top records ss ->
  fetch_usdt_perpetual_pairs.main rt (Replied 200 (Ok (PyDict top)))
  = print_loop rt
      [seq PyStr s | s <- sort_strs rt [seq s <- ss | s != [::]]] [::].
Proof.
move=> c; rewrite /fetch_usdt_perpetual_pairs.main /fetch_exchange_info /=.
rewrite (extract_carries c) sort_symbols_custom_sort custom_sort_strs //.
exact: filter_all.
Qed.

(* The whole run, when sys.stdout takes every symbol. *)
Lemma main_console_carries top records ss :
  carries top records ss -> all (fun s => prints rt (PyStr s)) ss ->
  fetch_usdt_perpetual_pairs.main rt (Replied 200 (Ok (PyDict top)))
  = Outcome [seq Symbol (PyStr s) | s <- sort_strs rt [seq s <- ss | s != [::]]]
      [::] None 0.
Proof.
move=> c ps; rewrite (main_console_sorted c) print_loop_all /= -?map_comp //.
rewrite all_map; apply/allP=> s; rewrite mem_sort mem_filter => /andP[_].
exact: (allP ps).
Qed.

Lemma extract_loop_non_dict infos symbols :
  has (predC is_dict) infos ->
  extract_loop infos symbols = Raise AttributeError.
Proof.
elim: infos symbols => [|info infos IH] symbols //=.
case: info => //= r hn.
by do 3!(case: ifP => _; rewrite ?IH //).
Qed.

Lemma comprehension_non_dict infos symbols :
  has (predC is_dict) infos ->
  comprehension infos symbols = Raise KeyError
  \/ comprehension infos symbols = Raise AttributeError.
Proof.
elim: infos symbols => [|info infos IH] symbols //=.
case: info => /=; try by move=> *; right.
move=> r hn; case: ifP => _; last exact: IH.
case: ifP => _; last exact: IH.
by case: (lookup r _) => [x|] /=; [exact: IH | left].
Qed.

Lemma caught_by_URLError e :
  caught_by [:: URLError; HTTPError] e = isinstance e URLError.
Proof. by case: e. Qed.

End Runs.

Lemma sorted_lt_of_uniq (ss : seq pystr) :
  sorted str_le ss -> uniq ss -> sorted str_lt ss.
Proof.
rewrite (sorted_pairwise str_le_trans) uniq_pairwise => ple pne.
apply: pairwise_sorted.
have: pairwise [rel s t | str_le s t && (s != t)] ss by rewrite pairwise_relI ple.
apply: sub_pairwise => s t /=; rewrite str_leE.
by case: (s == t) => //=; rewrite andbT.
Qed.

(** X6: on a 2xx reply whose qualifying records carry non-empty str
    symbols, the file variant writes each distinct symbol once, in the
    order of the sorter, prints the number of symbols written and exits
    0. *)
Theorem file_variant_listing (rt : runtime) (st : nat) (top : record)
    (records : seq record) (ss : seq pystr) :
  success st -> carries top records ss -> all (fun s => s != [::]) ss ->
  exists out : seq pystr,
    [/\ fetch_pairs.main rt (Replied st (Ok (PyDict top)))
          = Outcome [:: Saved (size out)] [::]
              (Some [seq PyStr s | s <- out]) 0,
        uniq out, out =i ss & sorted (symbol_le rt) out].
Proof.
move=> sst c nss; exists (sort_strs rt (undup ss)).
rewrite (main_file_carries rt sst c) nss size_sort; split=> //.
- by rewrite sort_uniq undup_uniq.
- by move=> s; rewrite mem_sort mem_undup.
- exact: sort_strs_sorted.
Qed.

(** X7: on a 200 reply of dict records whose qualifying records all carry
    str symbols, one of them the empty string, the file variant ends on an
    uncaught IndexError with nothing written and exit status 1, while the
    console variant leaves that record out and, when sys.stdout takes the
    symbols, prints the other ones and exits 0. *)
Theorem file_variant_empty_symbol (rt : runtime) (top : record)
    (records : seq record) (ss : seq pystr) :
  carries top records ss -> all (fun s => prints rt (PyStr s)) ss ->
  [::] \in ss ->
  let reply := Replied 200 (Ok (PyDict top)) in
  fetch_pairs.main rt reply = Outcome [::] [:: Traceback IndexError] None 1
  /\ fetch_usdt_perpetual_pairs.main rt reply
     = Outcome
         [seq Symbol (PyStr s) | s <- sort_strs rt [seq s <- ss | s != [::]]]
         [::] None 0.
Proof.
move=> c ps ein /=; rewrite (@main_file_carries rt 200 _ _ _ _ c) //.
rewrite (main_console_carries c ps); split=> //.
by case: allP => // /(_ _ ein).
Qed.

(** X8: on a 200 reply whose qualifying records carry str symbols that
    sys.stdout takes, the console variant prints the non-empty ones, one
    line each, repetitions included, in the order of the sorter, nothing on
    the error stream, and exits 0. *)
Theorem console_variant_listing (rt : runtime) (top : record)
    (records : seq record) (ss : seq pystr) :
  carries top records ss -> all (fun s => prints rt (PyStr s)) ss ->
  exists out : seq pystr,
    [/\ fetch_usdt_perpetual_pairs.main rt (Replied 200 (Ok (PyDict top)))
          = Outcome [seq Symbol (PyStr s) | s <- out] [::] None 0,
        perm_eq out [seq s <- ss | s != [::]]
      & sorted (symbol_le rt) out].
Proof.
move=> c ps; exists (sort_strs rt [seq s <- ss | s != [::]]).
rewrite (main_console_carries c ps); split=> //.
- exact: sort_strs_perm.
- exact: sort_strs_sorted.
Qed.

(** X9: when no qualifying symbol is repeated, none is empty and
    sys.stdout takes them all, the two variants produce the same list: what
    the file variant writes is what the console variant prints. *)
Theorem variants_agree (rt : runtime) (top : record)
    (records : seq record) (ss : seq pystr) :
  carries top records ss -> uniq ss -> all (fun s => s != [::]) ss ->
  all (fun s => prints rt (PyStr s)) ss ->
  let reply := Replied 200 (Ok (PyDict top)) in
  exists out : seq pystr,
    written (fetch_pairs.main rt reply) = Some [seq PyStr s | s <- out]
    /\ stdout (fetch_usdt_perpetual_pairs.main rt reply)
       = [seq Symbol (PyStr s) | s <- out].
Proof.
move=> c us nss ps /=; exists (sort_strs rt ss).
rewrite (@main_file_carries rt 200 _ _ _ _ c) // nss.
rewrite (main_console_carries c ps).
by rewrite (undup_id us) (all_filterP nss).
Qed.

(** X10: on a 200 reply that is a dict with no symbols entry, the console
    variant prints nothing and exits 0, while the file variant ends on an
    uncaught KeyError with nothing written and exit status 1. *)
Theorem missing_symbols_entry (rt : runtime) (top : record) :
  lookup top (str "symbols") = None ->
  let reply := Replied 200 (Ok (PyDict top)) in
  fetch_usdt_perpetual_pairs.main rt reply = Outcome [::] [::] None 0
  /\ fetch_pairs.main rt reply = Outcome [::] [:: Traceback KeyError] None 1.
Proof.
move=> et /=; split.
  rewrite /fetch_usdt_perpetual_pairs.main /fetch_exchange_info /=.
  by rewrite /extract_usdt_perpetual_symbols /= et.
by rewrite /fetch_pairs.main /fetch_symbols /= /symbols_of_payload /= et.
Qed.

(** X11: on a 200 reply whose JSON value is not a dict, neither variant
    produces output: the file variant ends on an uncaught TypeError, the
    console variant on an uncaught AttributeError, both with exit status 1
    and without the cached list or the Failed message. *)
Theorem payload_not_a_dict (rt : runtime) (payload : pyobj) :
  ~~ is_dict payload ->
  let reply := Replied 200 (Ok payload) in
  fetch_pairs.main rt reply = Outcome [::] [:: Traceback TypeError] None 1
  /\ fetch_usdt_perpetual_pairs.main rt reply
     = Outcome [::] [:: Traceback AttributeError] None 1.
Proof. by case: payload. Qed.

(** X12: one item of the symbols list that is not a dict aborts the whole
    extraction, whatever the other records are: the console variant ends on
    an uncaught AttributeError, the file variant on an uncaught KeyError or
    AttributeError, both with exit status 1 and no symbol printed or
    written. *)
Theorem record_not_a_dict (rt : runtime) (top : record)
    (infos : seq pyobj) :
  lookup top (str "symbols") = Some (PyList infos) ->
  has (predC is_dict) infos ->
  let reply := Replied 200 (Ok (PyDict top)) in
  fetch_usdt_perpetual_pairs.main rt reply
    = Outcome [::] [:: Traceback AttributeError] None 1
  /\ exists e : exn,
       (e = KeyError \/ e = AttributeError)
       /\ fetch_pairs.main rt reply = Outcome [::] [:: Traceback e] None 1.
Proof.
move=> et hn /=; split.
  rewrite /fetch_usdt_perpetual_pairs.main /fetch_exchange_info /=.
  by rewrite /extract_usdt_perpetual_symbols /= et /= extract_loop_non_dict.
rewrite /fetch_pairs.main /fetch_symbols /= /symbols_of_payload /= et /=.
by case: (comprehension_non_dict [::] hn) => ->;
   [exists KeyError | exists AttributeError]; split=> //; [left | right].
Qed.

(** X13: the file variant prints its warning and turns to the cached list
    exactly when fetch_symbols raises URLError or a subclass of it, and
    the warning names that exception. *)
Theorem fallback_only_on_URLError (rt : runtime) (t : transport)
    (exc : exn) :
  (exists rest, stdout (fetch_pairs.main rt t) = Warning exc :: rest)
  <-> (fetch_symbols rt t = Raise exc /\ isinstance exc URLError).
Proof.
rewrite /fetch_pairs.main; case ef: (fetch_symbols rt t) => [symbols|e].
- split; last by case.
  case: (custom_sort rt symbols) => [s'|e'] /=; last by case.
  by rewrite /save; case: (custom_sort rt s') => [s''|e''] /=; case.
- rewrite caught_by_URLError; case ie: (isinstance e URLError).
  + rewrite /save; case: (custom_sort rt CACHED_SYMBOLS) => [out|e'] /=.
    * split; first by case=> rest [<- _].
      by case=> -[<-] _; eexists.
    * split; first by case=> rest [<-].
      by case=> -[<-] _; eexists.
  + split; first by case.
    by case=> -[<-]; rewrite ie.
Qed.

(** X14: a run of the file variant either writes a list, and then it exits
    0 with an empty error stream, the list is an output of custom_sort and
    the last line printed reports its length; or it writes nothing, and
    then it exits 1 with one traceback on the error stream and no Saved
    line printed. *)
Theorem file_run_outcome (rt : runtime) (t : transport) :
  let run := fetch_pairs.main rt t in
  match written run with
  | Some out =>
      [/\ exit_status run = 0, stderr run = [::],
          exists lines, stdout run = rcons lines (Saved (size out))
        & exists input, custom_sort rt input = Ok out]
  | None =>
      [/\ exit_status run = 1, exists e, stderr run = [:: Traceback e]
        & all not_saved (stdout run)]
  end.
Proof.
have save_ok out input : all not_saved out ->
    match written (save rt out input) with
    | Some l =>
        [/\ exit_status (save rt out input) = 0,
            stderr (save rt out input) = [::],
            exists lines, stdout (save rt out input) = rcons lines (Saved (size l))
          & exists input', custom_sort rt input' = Ok l]
    | None =>
        [/\ exit_status (save rt out input) = 1,
            exists e, stderr (save rt out input) = [:: Traceback e]
          & all not_saved (stdout (save rt out input))]
    end.
  rewrite /save; case es: (custom_sort rt input) => [l|e] /= ns.
    by split=> //; [exists out | exists input; exact: es].
  by split=> //; exists e.
rewrite /fetch_pairs.main; case: (fetch_symbols rt t) => [symbols|e].
  case: (custom_sort rt symbols) => [s'|e'] /=; first exact: save_ok.
  by split=> //; exists e'.
case: ifP => _; first exact: (save_ok [:: Warning e] CACHED_SYMBOLS isT).
by split=> //; exists e.
Qed.

(** X15: a 2xx reply with a status other than 200 is refused by the console
    variant whatever its body is (RuntimeError, the Failed message, exit
    status 1), while the file variant does not look at the status and runs
    as it does on a 200 reply with the same body. *)
Theorem status_other_than_200 (rt : runtime) (st : nat)
    (body : result pyobj) :
  success st -> st != 200 ->
  fetch_usdt_perpetual_pairs.main rt (Replied st body)
    = Outcome [::] [:: Failed RuntimeError] None 1
  /\ fetch_pairs.main rt (Replied st body)
     = fetch_pairs.main rt (Replied 200 body).
Proof.
rewrite /success => sst ne.
rewrite /fetch_usdt_perpetual_pairs.main /fetch_exchange_info /= sst /= ne /=.
by rewrite /fetch_pairs.main /fetch_symbols /= sst.
Qed.

(** X16: on a payload whose symbols entry is a list of dicts, the console
    extractor returns the truthy symbol fields of the records whose
    contractType is PERPETUAL and quoteAsset is USDT, in payload order, and
    never raises; fetch_symbols raises KeyError exactly when one of those
    records has no symbol field, and otherwise sorts the set of all their
    symbol fields. *)
Theorem extractors_on_dicts (rt : runtime) (top : record)
    (records : seq record) :
  lookup top (str "symbols") = Some (PyList [seq PyDict r | r <- records]) ->
  extract_usdt_perpetual_symbols (PyDict top)
    = Ok [seq x <- wanted records | truthy x]
  /\ symbols_of_payload rt (PyDict top)
     = (if all (fun r => qualifies r ==> has_symbol r) records
        then sorted_set rt (wanted records) else Raise KeyError).
Proof.
by move=> et; rewrite (extract_dicts et) (symbols_of_payload_dicts rt et).
Qed.

(** X17: on a 2xx reply whose qualifying records carry str symbols,
    fetch_symbols returns those symbols in strictly ascending code point
    order, each once. *)
Theorem fetch_symbols_ascending (rt : runtime) (st : nat) (top : record)
    (records : seq record) (ss : seq pystr) :
  success st -> carries top records ss ->
  exists out : seq pystr,
    [/\ fetch_symbols rt (Replied st (Ok (PyDict top)))
          = Ok [seq PyStr s | s <- out],
        sorted str_lt out & out =i ss].
Proof.
move=> sst c; exists (sorted_with str_lt (undup ss)).
rewrite fetch_symbols_success // (symbols_of_payload_carries rt c); split=> //.
- apply: sorted_lt_of_uniq; last by rewrite sort_uniq undup_uniq.
  exact/sort_sorted/str_le_total.
- by move=> s; rewrite mem_sort mem_undup.
Qed.

(** X18: a run of the console variant writes no file and prints nothing
    but symbol lines. It exits 0 with an empty error stream, or it exits 1
    with one message on the error stream, the Failed line or a traceback;
    then nothing was printed, unless the traceback is that of the
    UnicodeEncodeError print raises on a symbol sys.stdout does not take. *)
Theorem console_run_outcome (rt : runtime) (t : transport) :
  let run := fetch_usdt_perpetual_pairs.main rt t in
  [/\ written run = None, all is_symbol (stdout run)
    & match exit_status run with
      | 0 => stderr run = [::]
      | _ =>
          exit_status run = 1
          /\ exists e,
               (stderr run = [:: Failed e] /\ stdout run = [::])
               \/ (stderr run = [:: Traceback e]
                   /\ (stdout run = [::] \/ e = UnicodeEncodeError))
      end].
Proof.
rewrite /fetch_usdt_perpetual_pairs.main.
case: (payload <- _;; _) => [symbols|e] /=.
  case: (sort_symbols rt symbols) => [ordered|e] /=.
    case: (@print_loop_shape rt ordered [::] isT) => -> -> [[-> ->]|[-> ->]].
      by split.
    by split=> //; split=> //; exists UnicodeEncodeError; right; split=> //; right.
  by split=> //; split=> //; exists e; right; split=> //; left.
case: ifP => _ /=; split=> //; split=> //; exists e; [by left|].
by right; split=> //; left.
Qed.

(** X21: on a 200 reply whose qualifying records carry str symbols, when
    print reaches, in sorter order, a symbol sys.stdout does not take, the
    console variant has printed the symbols before it and nothing more,
    ends on the uncaught UnicodeEncodeError and exits 1. *)
Theorem console_print_failure (rt : runtime) (top : record)
    (records : seq record) (ss pre : seq pystr) (s : pystr)
    (post : seq pystr) :
  carries top records ss ->
  sort_strs rt [seq s <- ss | s != [::]] = pre ++ s :: post ->
  all (fun s => prints rt (PyStr s)) pre -> ~~ prints rt (PyStr s) ->
  fetch_usdt_perpetual_pairs.main rt (Replied 200 (Ok (PyDict top)))
  = Outcome [seq Symbol (PyStr s) | s <- pre]
      [:: Traceback UnicodeEncodeError] None 1.
Proof.
move=> c es pp ns; rewrite (main_console_sorted rt c) es map_cat /=.
by rewrite print_loop_first ?all_map //= -map_comp.
Qed.

(** X19: on non-empty strings the result of the sorters depends on which
    symbols the input holds and how often, not on the order they come in:
    two inputs that are permutations of each other are sorted into the
    same list. *)
Theorem sorter_order_independent (rt : runtime) (s1 s2 : seq pystr) :
  perm_eq s1 s2 -> all (fun s => s != [::]) s1 ->
  exists out : seq pystr,
    [/\ custom_sort rt [seq PyStr s | s <- s1] = Ok [seq PyStr s | s <- out],
        custom_sort rt [seq PyStr s | s <- s2] = Ok [seq PyStr s | s <- out],
        sort_symbols rt [seq PyStr s | s <- s1] = Ok [seq PyStr s | s <- out]
      & sort_symbols rt [seq PyStr s | s <- s2] = Ok [seq PyStr s | s <- out]].
Proof.
move=> p12 n1; have n2 : all (fun s => s != [::]) s2 by rewrite -(perm_all _ p12).
exists (sort_strs rt s1); rewrite !sort_symbols_custom_sort !custom_sort_strs //.
by rewrite (sort_strs_perm_eq rt p12).
Qed.

(** X20: what the file variant writes and prints depends only on the set of
    qualifying symbols: two 2xx replies whose qualifying records carry the
    same non-empty str symbols, in any order and with any repetitions, give
    the same run. *)
Theorem file_variant_set_determined (rt : runtime) (st1 st2 : nat)
    (top1 top2 : record) (records1 records2 : seq record)
    (ss1 ss2 : seq pystr) :
  success st1 -> success st2 ->
  carries top1 records1 ss1 -> carries top2 records2 ss2 ->
  ss1 =i ss2 ->
  fetch_pairs.main rt (Replied st1 (Ok (PyDict top1)))
  = fetch_pairs.main rt (Replied st2 (Ok (PyDict top2))).
Proof.
move=> sst1 sst2 c1 c2 e12.
rewrite (main_file_carries rt sst1 c1) (main_file_carries rt sst2 c2).
rewrite (eq_all_r e12) (sort_strs_perm_eq rt (perm_undup e12)).
by rewrite (perm_size (perm_undup e12)).
Qed.

(* --------------------------------------------------------------------- *)
(* Instances                                                             *)
(* --------------------------------------------------------------------- *)

Lemma file_variant_listing_listed :
  [/\ success 200, carries listed_top listed_records listed_symbols
    & all (fun s => s != [::]) listed_symbols] /\
  exists out : seq pystr,
    [/\ fetch_pairs.main ascii_runtime (Replied 200 (Ok (PyDict listed_top)))
          = Outcome [:: Saved (size out)] [::]
              (Some [seq PyStr s | s <- out]) 0,
        uniq out, out =i listed_symbols
      & sorted (symbol_le ascii_runtime) out].
Proof.
split; [split; [reflexivity | (split; reflexivity) | reflexivity] |].
apply (@file_variant_listing ascii_runtime 200 listed_top listed_records
         listed_symbols);
  [reflexivity | (split; reflexivity) | reflexivity].
Defined.

Lemma file_variant_empty_symbol_ragged :
  [/\ carries ragged_top ragged_records ragged_symbols,
      all (fun s => prints ascii_runtime (PyStr s)) ragged_symbols
    & [::] \in ragged_symbols] /\
  let reply := Replied 200 (Ok (PyDict ragged_top)) in
  fetch_pairs.main ascii_runtime reply
    = Outcome [::] [:: Traceback IndexError] None 1
  /\ fetch_usdt_perpetual_pairs.main ascii_runtime reply
     = Outcome
         [seq Symbol (PyStr s)
            | s <- sort_strs ascii_runtime
                     [seq s <- ragged_symbols | s != [::]]]
         [::] None 0.
Proof.
split; [split; [split; reflexivity | reflexivity | reflexivity] |].
apply (@file_variant_empty_symbol ascii_runtime ragged_top ragged_records
         ragged_symbols); [split; reflexivity | reflexivity | reflexivity].
Defined.

Lemma console_variant_listing_ragged :
  (carries ragged_top ragged_records ragged_symbols
   /\ all (fun s => prints ascii_runtime (PyStr s)) ragged_symbols) /\
  exists out : seq pystr,
    [/\ fetch_usdt_perpetual_pairs.main ascii_runtime
          (Replied 200 (Ok (PyDict ragged_top)))
          = Outcome [seq Symbol (PyStr s) | s <- out] [::] None 0,
        perm_eq out [seq s <- ragged_symbols | s != [::]]
      & sorted (symbol_le ascii_runtime) out].
Proof.
split; [split; [split; reflexivity | reflexivity] |].
apply (@console_variant_listing ascii_runtime ragged_top ragged_records
         ragged_symbols); [split; reflexivity | reflexivity].
Defined.

Lemma variants_agree_distinct :
  [/\ carries distinct_top distinct_records distinct_symbols,
      uniq distinct_symbols, all (fun s => s != [::]) distinct_symbols
    & all (fun s => prints ascii_runtime (PyStr s)) distinct_symbols] /\
  let reply := Replied 200 (Ok (PyDict distinct_top)) in
  exists out : seq pystr,
    written (fetch_pairs.main ascii_runtime reply)
      = Some [seq PyStr s | s <- out]
    /\ stdout (fetch_usdt_perpetual_pairs.main ascii_runtime reply)
       = [seq Symbol (PyStr s) | s <- out].
Proof.
split; [split; [split; reflexivity | reflexivity | reflexivity
                | reflexivity] |].
apply (@variants_agree ascii_runtime distinct_top distinct_records
         distinct_symbols);
  [split; reflexivity | reflexivity | reflexivity | reflexivity].
Defined.

Lemma missing_symbols_entry_bare :
  lookup bare_top (str "symbols") = None /\
  let reply := Replied 200 (Ok (PyDict bare_top)) in
  fetch_usdt_perpetual_pairs.main ascii_runtime reply
    = Outcome [::] [::] None 0
  /\ fetch_pairs.main ascii_runtime reply
     = Outcome [::] [:: Traceback KeyError] None 1.
Proof.
split; [reflexivity |].
apply (@missing_symbols_entry ascii_runtime bare_top); reflexivity.
Defined.

Lemma payload_not_a_dict_list :
  ~~ is_dict (PyList [:: PyDict (listing "ETHUSDT" "PERPETUAL" "USDT")]) /\
  let reply :=
    Replied 200 (Ok (PyList [:: PyDict (listing "ETHUSDT" "PERPETUAL" "USDT")]))
  in
  fetch_pairs.main ascii_runtime reply
    = Outcome [::] [:: Traceback TypeError] None 1
  /\ fetch_usdt_perpetual_pairs.main ascii_runtime reply
     = Outcome [::] [:: Traceback AttributeError] None 1.
Proof.
split; [reflexivity |].
apply (@payload_not_a_dict ascii_runtime
         (PyList [:: PyDict (listing "ETHUSDT" "PERPETUAL" "USDT")]));
  reflexivity.
Defined.

Lemma record_not_a_dict_broken :
  (lookup broken_top (str "symbols") = Some (PyList broken_items)
   /\ has (predC is_dict) broken_items) /\
  let reply := Replied 200 (Ok (PyDict broken_top)) in
  fetch_usdt_perpetual_pairs.main ascii_runtime reply
    = Outcome [::] [:: Traceback AttributeError] None 1
  /\ exists e : exn,
       (e = KeyError \/ e = AttributeError)
       /\ fetch_pairs.main ascii_runtime reply
          = Outcome [::] [:: Traceback e] None 1.
Proof.
split; [split; reflexivity |].
apply (@record_not_a_dict ascii_runtime broken_top broken_items); reflexivity.
Defined.

Lemma status_other_than_200_created :
  (success 201 /\ 201 != 200) /\
  fetch_usdt_perpetual_pairs.main ascii_runtime
    (Replied 201 (Ok (PyDict listed_top)))
    = Outcome [::] [:: Failed RuntimeError] None 1
  /\ fetch_pairs.main ascii_runtime (Replied 201 (Ok (PyDict listed_top)))
     = fetch_pairs.main ascii_runtime (Replied 200 (Ok (PyDict listed_top))).
Proof.
split; [split; reflexivity |].
apply (@status_other_than_200 ascii_runtime 201 (Ok (PyDict listed_top)));
  reflexivity.
Defined.

Lemma extractors_on_dicts_ragged :
  lookup ragged_top (str "symbols")
    = Some (PyList [seq PyDict r | r <- ragged_records]) /\
  (extract_usdt_perpetual_symbols (PyDict ragged_top)
     = Ok [seq x <- wanted ragged_records | truthy x]
   /\ symbols_of_payload ascii_runtime (PyDict ragged_top)
      = (if all (fun r => qualifies r ==> has_symbol r) ragged_records
         then sorted_set ascii_runtime (wanted ragged_records)
         else Raise KeyError)).
Proof.
split; [reflexivity |].
apply (@extractors_on_dicts ascii_runtime ragged_top ragged_records).
reflexivity.
Defined.

Lemma fetch_symbols_ascending_listed :
  (success 200 /\ carries listed_top listed_records listed_symbols) /\
  exists out : seq pystr,
    [/\ fetch_symbols ascii_runtime (Replied 200 (Ok (PyDict listed_top)))
          = Ok [seq PyStr s | s <- out],
        sorted str_lt out & out =i listed_symbols].
Proof.
split; [split; [reflexivity | (split; reflexivity)] |].
apply (@fetch_symbols_ascending ascii_runtime 200 listed_top listed_records
         listed_symbols); [reflexivity | (split; reflexivity)].
Defined.

Lemma sorter_order_independent_sample :
  (perm_eq listed_symbols
     [:: str "AAVEUSDT"; str "ETHUSDT"; str "ETHUSDT"; str "1INCHUSDT"]
   /\ all (fun s => s != [::]) listed_symbols) /\
  exists out : seq pystr,
    [/\ custom_sort ascii_runtime [seq PyStr s | s <- listed_symbols]
          = Ok [seq PyStr s | s <- out],
        custom_sort ascii_runtime
          [seq PyStr s | s <- [:: str "AAVEUSDT"; str "ETHUSDT";
                                  str "ETHUSDT"; str "1INCHUSDT"]]
          = Ok [seq PyStr s | s <- out],
        sort_symbols ascii_runtime [seq PyStr s | s <- listed_symbols]
          = Ok [seq PyStr s | s <- out]
      & sort_symbols ascii_runtime
          [seq PyStr s | s <- [:: str "AAVEUSDT"; str "ETHUSDT";
                                  str "ETHUSDT"; str "1INCHUSDT"]]
          = Ok [seq PyStr s | s <- out]].
Proof.
split; [split; vm_compute; reflexivity |].
apply (@sorter_order_independent ascii_runtime listed_symbols
         [:: str "AAVEUSDT"; str "ETHUSDT"; str "ETHUSDT"; str "1INCHUSDT"]);
  vm_compute; reflexivity.
Defined.

Lemma file_variant_set_determined_shuffled :
  [/\ success 200, success 201,
      carries listed_top listed_records listed_symbols,
      carries shuffled_top shuffled_records shuffled_symbols
    & all (fun s => s \in shuffled_symbols) listed_symbols
      && all (fun s => s \in listed_symbols) shuffled_symbols] /\
  fetch_pairs.main ascii_runtime (Replied 200 (Ok (PyDict listed_top)))
  = fetch_pairs.main ascii_runtime (Replied 201 (Ok (PyDict shuffled_top))).
Proof.
split; [split; [reflexivity | reflexivity | split; reflexivity
                | split; reflexivity | reflexivity] |].
apply (@file_variant_set_determined ascii_runtime 200 201 listed_top
         shuffled_top listed_records shuffled_records listed_symbols
         shuffled_symbols);
  [reflexivity | reflexivity | split; reflexivity | split; reflexivity |].
intro s; apply/idP/idP; intro H.
- exact (allP (s:=listed_symbols) (a:=fun s => s \in shuffled_symbols)
           (erefl true) s H).
- exact (allP (s:=shuffled_symbols) (a:=fun s => s \in listed_symbols)
           (erefl true) s H).
Defined.

Lemma console_print_failure_surrogate :
  [/\ carries surrogate_top surrogate_records surrogate_symbols,
      sort_strs utf8_runtime [seq s <- surrogate_symbols | s != [::]]
        = [:: str "AUSDT"] ++ (55296 :: str "USDT") :: [:: 56832 :: str "X"],
      all (fun s => prints utf8_runtime (PyStr s)) [:: str "AUSDT"]
    & ~~ prints utf8_runtime (PyStr (55296 :: str "USDT"))] /\
  fetch_usdt_perpetual_pairs.main utf8_runtime
    (Replied 200 (Ok (PyDict surrogate_top)))
  = Outcome [seq Symbol (PyStr s) | s <- [:: str "AUSDT"]]
      [:: Traceback UnicodeEncodeError] None 1.
Proof.
split; [split; [split; reflexivity | reflexivity | reflexivity
                | reflexivity] |].
apply (@console_print_failure utf8_runtime surrogate_top surrogate_records
         surrogate_symbols [:: str "AUSDT"] (55296 :: str "USDT")
         [:: 56832 :: str "X"]);
  [split; reflexivity | reflexivity | reflexivity | reflexivity].
Defined.
